(** * GlobaLeaks REST decorators: a shallow embedding and its properties

    Source: [backend/globaleaks/rest/decorators.py].

    The module wraps the methods of the API handlers with policy layers
    (rate limit, token gate, authentication, response cache, cache
    invalidation, endpoint refresh) and composes them in
    [decorate_method].  Python closures over [self] become functions on an
    explicit [World]; Twisted's [Deferred] becomes an inductive resumption
    type; the cache dictionary becomes a [gmap]. *)

From Stdlib Require Import Floats.
From Stdlib Require Import ZArith QArith Qminmax String Ascii List Lia Lqa.
From stdpp Require Import base option gmap strings.

Set Warnings "-register-all".

Local Open Scope Z_scope.
Local Open Scope string_scope.

(** ** Python values and exceptions *)

(** The values a handler may return.  Only the distinction made by
    [isinstance(data, (dict, list))] matters to the decorators. *)
Inductive pyval : Type :=
| PyNone
| PyInt (n : Z)
| PyStr (s : string)
| PyBytes (b : string)
| PyList (xs : list pyval)
| PyDict (kvs : list (string * pyval)).

Definition is_dict_or_list (data : pyval) : bool :=
  match data with
  | PyDict _ | PyList _ => true
  | _ => false
  end.

(** [errors.NotAuthenticated], [errors.InternalServerError(msg)] and any
    other exception a wrapped handler or a collaborator may raise. *)
Inductive error : Type :=
| NotAuthenticated
| InternalServerError (msg : string)
| OtherError (name : string).

(** ** Sessions, requests, handler instances *)

(** Datetimes are counted in microseconds, the resolution of Python's
    [datetime]; [timedelta(seconds=30)] is [30 * 10^6]. *)
Definition datetime := Z.

Definition timedelta_seconds (n : Z) : Z := n * 1000000.

(** [datetime.timestamp()] as the exact rational number of seconds, for
    the rate limiter in exact arithmetic, [decorator_rate_limit].  Python
    yields a binary64 float: [decorator_rate_limit64] below computes with
    those. *)
Definition timestamp (t : datetime) : Q := t # 1000000.

Record Session : Type := mkSession {
  sess_tid : Z;
  user_role : string;
  ratelimit_time : datetime;
  ratelimit_count : Z
}.

Record Request : Type := mkRequest {
  req_tid : Z;
  path : string;
  language : string;
  uri : string;
  (* the [Content-type] entry of [responseHeaders]; Twisted folds the case
     of header names, so [b'content-type'] and [b'Content-type'] coincide *)
  content_type : option string
}.

(** Static attributes of a handler class, read by [decorate_method] on the
    class and by the wrappers on the instance. *)
Record Attributes : Type := mkAttributes {
  check_roles : string + gset string;
  cache_resource : bool;
  invalidate_cache : bool;
  refresh_connection_endpoints : bool;
  require_token : bool
}.

(** A handler instance, the [self] of the wrappers. *)
Record Handler : Type := mkHandler {
  attrs : Attributes;
  session : option Session;
  request : Request;
  token : option string
}.

(** Python truthiness of an object reference that may be [None]. *)
Definition truthy {A : Type} (o : option A) : bool :=
  match o with Some _ => true | None => false end.

(** [bytes.endswith] *)
Definition endswith (s suffix : string) : bool :=
  let n := String.length s in
  let m := String.length suffix in
  (m <=? n)%nat && String.eqb (substring (n - m) m s) suffix.

(** ** The cache store *)

Abbreviation CacheKey := (Z * string * string)%type.
Abbreviation CacheEntry := (string * pyval)%type.
Abbreviation CacheDict := (gmap CacheKey CacheEntry).

(** The class [globaleaks.rest.cache.Cache] lives in another module of the
    repository; its three class methods are modelled from the interface
    the specification gives for the cache store, on the dictionary they
    share. *)
Module Cache.

(** Modelled from the spec: [Cache.get], defined in [globaleaks.rest.cache];
    [get(tenant, path, language) -> Option<(content_type, body)>]. *)
Definition get (tid : Z) (resource lang : string) (c : CacheDict)
  : option CacheEntry :=
  c !! (tid, resource, lang).

(** Modelled from the spec: [Cache.set], defined in [globaleaks.rest.cache];
    [set(tenant, path, language, content_type, body) -> stored_entry]. *)
Definition set (tid : Z) (resource lang : string) (ct : string)
    (data : pyval) (c : CacheDict) : CacheDict * CacheEntry :=
  (<[(tid, resource, lang) := (ct, data)]> c, (ct, data)).

(** Modelled from the spec: [Cache.invalidate], defined in
    [globaleaks.rest.cache]; [invalidate(tenant)] removes all cached
    entries of the tenant across every path and language and leaves the
    entries of other tenants untouched. *)
Definition invalidate (tid : Z) (c : CacheDict) : CacheDict :=
  filter (fun kv : CacheKey * CacheEntry => kv.1.1.1 <> tid) c.

End Cache.

Section Decorators.

#[local] Set Default Proof Using "Type".

(** State of the business logic behind the handlers; opaque here. *)
Variable AppState : Type.

(** The whole state a wrapper can see: the handler instance it is bound
    to, the process-wide cache, the wall clock read by [datetime_now] and
    the application state. *)
Record World : Type := mkWorld {
  self : Handler;
  cache : CacheDict;
  clock : datetime;
  app_state : AppState
}.

(** *** Deferreds *)

Inductive Result : Type :=
| Ok (v : pyval)
| Failure (e : error).

(** A Twisted [Deferred]: already fired with a value or a failure, or
    waiting for the reactor, which resumes it in the world of that later
    moment. *)
Inductive Deferred : Type :=
| Succeeded (v : pyval)
| Failed (e : error)
| Waiting (k : World -> World * Deferred).

(** What calling a Python method does: return a plain value, raise, or
    return a Deferred. *)
Inductive Outcome : Type :=
| Returns (v : pyval)
| Raises (e : error)
| ReturnsDeferred (d : Deferred).

Definition Method : Type := World -> World * Outcome.

(** [defer.maybeDeferred(f, ...)], after [f] has been called. *)
Definition maybeDeferred (o : Outcome) : Deferred :=
  match o with
  | Returns v => Succeeded v
  | Raises e => Failed e
  | ReturnsDeferred d => d
  end.

(** [d.addCallback(cb)]: on a fired Deferred the callback runs at once,
    on a waiting one when it fires; a failure skips it; a callback that
    raises turns the Deferred into a failure. *)
Fixpoint addCallback (d : Deferred) (cb : pyval -> World -> World * Result)
    (w : World) : World * Deferred :=
  match d with
  | Succeeded v =>
      match cb v w with
      | (w', Ok v') => (w', Succeeded v')
      | (w', Failure e) => (w', Failed e)
      end
  | Failed e => (w, Failed e)
  | Waiting k =>
      (w, Waiting (fun w1 =>
             match k w1 with
             | (w2, d') => addCallback d' cb w2
             end))
  end.

(** *** Attribute assignments *)

Definition set_session (s : Session) (w : World) : World :=
  mkWorld (mkHandler (attrs (self w)) (Some s) (request (self w))
             (token (self w)))
          (cache w) (clock w) (app_state w).

(** [self.request.setHeader(b'Content-type', v)] *)
Definition setHeader (v : string) (w : World) : World :=
  let r := request (self w) in
  mkWorld (mkHandler (attrs (self w)) (session (self w))
             (mkRequest (req_tid r) (path r) (language r) (uri r) (Some v))
             (token (self w)))
          (cache w) (clock w) (app_state w).

Definition set_cache (c : CacheDict) (w : World) : World :=
  mkWorld (self w) c (clock w) (app_state w).

(** [datetime_now()], defined in [globaleaks.utils.utility], reads the
    wall clock. *)
Definition datetime_now (w : World) : datetime := clock w.

(** *** decorator_rate_limit *)

(** [now > ratelimit_time + timedelta(seconds=30)]: start a new window. *)
Definition rate_window (now : datetime) (s : Session) : Session :=
  if now >? ratelimit_time s + timedelta_seconds 30
  then mkSession (sess_tid s) (user_role s) now 0
  else s.

(** [ratelimit_count += 1] *)
Definition rate_count (s : Session) : Session :=
  mkSession (sess_tid s) (user_role s) (ratelimit_time s)
            (ratelimit_count s + 1).

(** [max(now.timestamp() - ratelimit_time.timestamp(), 1)], in exact
    arithmetic *)
Definition rate_period (now : datetime) (s : Session) : Q :=
  Qmax (timestamp now - timestamp (ratelimit_time s)) 1.

(** [(ratelimit_count / period) > 5], in exact arithmetic *)
Definition rate_exceeded (now : datetime) (s : Session) : bool :=
  negb (Qle_bool (inject_Z (ratelimit_count s) / rate_period now s) 5).

(** The wrapper with the rate in exact arithmetic: the window and the
    counter are as in the source, the verdict is that of the source except
    where the rounding of floats decides, within rounding distance of a
    rate of 5. *)
Definition decorator_rate_limit (f : Method) : Method := fun w =>
  match session (self w) with
  | Some s =>
      if String.eqb (user_role s) "whistleblower" then
        let now := datetime_now w in
        let s' := rate_count (rate_window now s) in
        let w' := set_session s' w in
        if rate_exceeded now s' then (w', Raises NotAuthenticated)
        else f w'
      else f w
  | None => f w
  end.

(** *** decorator_rate_limit in binary64 *)

(** The conversion of a Python [int] to a [float], to the nearest float,
    ties to even, as [count / period] performs it on [count]; [None] is
    the [OverflowError] of an [int] beyond the range of floats. *)
Definition float_of_int (n : Z) : option float :=
  let x := SF2Prim (binary_normalize prec emax n 0 false) in
  if is_infinity x then None else Some x.

(** [max(now.timestamp() - ratelimit_time.timestamp(), 1)]: [max] keeps its
    first argument unless the second is greater.  [ts] is
    [datetime.timestamp()] on the datetimes [datetime_now()] makes. *)
Definition rate_period64 (ts : datetime -> float) (now : datetime)
    (s : Session) : float :=
  let elapsed := (ts now - ts (ratelimit_time s))%float in
  if (elapsed <? 1)%float then 1%float else elapsed.

(** [(ratelimit_count / period) > 5], or [None] when the division raises
    [OverflowError]. *)
Definition rate_exceeded64 (ts : datetime -> float) (now : datetime)
    (s : Session) : option bool :=
  match float_of_int (ratelimit_count s) with
  | Some count => Some (5 <? count / rate_period64 ts now s)%float
  | None => None
  end.

(** The wrapper with the floats of Python: the window test and the
    counter are integer arithmetic, the rate is binary64. *)
Definition decorator_rate_limit64 (ts : datetime -> float) (f : Method)
  : Method := fun w =>
  match session (self w) with
  | Some s =>
      if String.eqb (user_role s) "whistleblower" then
        let now := datetime_now w in
        let s' := rate_count (rate_window now s) in
        let w' := set_session s' w in
        match rate_exceeded64 ts now s' with
        | Some true => (w', Raises NotAuthenticated)
        | Some false => f w'
        | None => (w', Raises (OtherError "OverflowError"))
        end
      else f w
  | None => f w
  end.

(** [datetime.timestamp()] of an aware UTC datetime fewer than [2^53]
    microseconds from the epoch (until the year 2255): the microseconds
    over [10**6], one correctly rounded division. *)
Definition utc_timestamp (t : datetime) : float :=
  match float_of_int t with
  | Some x => (x / 1000000)%float
  | None => nan
  end.

(** *** decorator_require_token *)

Definition decorator_require_token (f : Method) : Method := fun w =>
  if negb (truthy (session (self w)))
     && negb (endswith (uri (request (self w))) "/api/token")
     && negb (truthy (token (self w)))
  then (w, Raises (InternalServerError
                     "TokenFailure: Missing or invalid token"))
  else f w.

(** *** decorator_authentication *)

Definition staff_roles : list string := ["admin"; "receiver"; "custodian"].

Definition authenticated (roles : gset string) (slf : Handler) : bool :=
  bool_decide ("any" ∈ roles)
  || match session slf with
     | Some s =>
         (sess_tid s =? req_tid (request slf))%Z
         && ((bool_decide ("user" ∈ roles)
              && bool_decide (user_role s ∈ staff_roles))
             || bool_decide (user_role s ∈ roles))
     | None => false
     end.

Definition decorator_authentication (f : Method) (roles : gset string)
  : Method := fun w =>
  if authenticated roles (self w) then f w
  else (w, Raises NotAuthenticated).

(** *** decorator_cache_get *)

(** [json.dumps(data, cls=JSONEncoder)]; the encoder is defined in
    [globaleaks.utils.json] and is taken as a parameter. *)
Variable json_dumps : pyval -> string.

Definition application_json : string := "application/json".

(** The callback attached on a miss. *)
Definition cache_get_callback (data : pyval) (w : World) : World * Result :=
  let '(w1, data1) :=
    if is_dict_or_list data
    then (setHeader application_json w, PyStr (json_dumps data))
    else (w, data) in
  let r := request (self w1) in
  let c := default application_json (content_type r) in
  let '(cache', entry) :=
    Cache.set (req_tid r) (path r) (language r) c data1 (cache w1) in
  (set_cache cache' w1, Ok entry.2).

Definition decorator_cache_get (f : Method) : Method := fun w =>
  let r := request (self w) in
  match Cache.get (req_tid r) (path r) (language r) (cache w) with
  | None =>
      let '(w1, o) := f w in
      let '(w2, d) := addCallback (maybeDeferred o) cache_get_callback w1 in
      (w2, ReturnsDeferred d)
  | Some c => (setHeader c.1 w, Returns c.2)
  end.

(** *** decorator_cache_invalidate *)

Definition decorator_cache_invalidate (f : Method) : Method := fun w =>
  if invalidate_cache (attrs (self w))
  then f (set_cache (Cache.invalidate (req_tid (request (self w))) (cache w))
                    w)
  else f w.

(** *** decorator_refresh_connection_endpoints *)

(** [self.state.refresh_connection_endpoints()]: the state object is
    defined in [globaleaks.state]; the operation is a parameter that
    updates the world and, like any call, may raise. *)
Variable state_refresh_connection_endpoints : World -> World * option error.

Definition refresh_callback (data : pyval) (w : World) : World * Result :=
  match state_refresh_connection_endpoints w with
  | (w', None) => (w', Ok data)
  | (w', Some e) => (w', Failure e)
  end.

Definition decorator_refresh_connection_endpoints (f : Method) : Method :=
  fun w =>
    let '(w1, o) := f w in
    let '(w2, d) := addCallback (maybeDeferred o) refresh_callback w1 in
    (w2, ReturnsDeferred d).

(** *** decorate_method *)

(** A handler class: its static attributes and its method table. *)
Record HandlerClass : Type := mkHandlerClass {
  cls_attrs : Attributes;
  methods : gmap string Method
}.

(** The conditional wrapping steps of [decorate_method], one per
    [if ...: f = decorator(f)] of the source. *)
Definition wrap_if (b : bool) (dec : Method -> Method) (f : Method)
  : Method :=
  if b then dec f else f.

(** [decorate_method(h, method)] under the setting
    [State.settings.enable_api_cache]; [None] is the [AttributeError] of
    [getattr(h, method)]. *)
Definition decorate_method (enable_api_cache : bool) (h : HandlerClass)
    (method : string) : option HandlerClass :=
  let a := cls_attrs h in
  let value : gset string :=
    match check_roles a with
    | inl s => {[ s ]}
    | inr v => v
    end in
  match methods h !! method with
  | None => None
  | Some f =>
      let f :=
        if enable_api_cache then
          if String.eqb method "get" then
            wrap_if (cache_resource a) decorator_cache_get f
          else
            let f := wrap_if (invalidate_cache a)
                             decorator_cache_invalidate f in
            wrap_if (refresh_connection_endpoints a)
                    decorator_refresh_connection_endpoints f
        else f in
      let f := decorator_authentication f value in
      let f :=
        if negb (bool_decide (method ∈ ["get"; "options"]))
           || require_token a
        then decorator_rate_limit (decorator_require_token f)
        else f in
      Some (mkHandlerClass a (<[method := f]> (methods h)))
  end.

(** *** Resolving a Deferred *)

(** The reactor fires a waiting Deferred; [env] is what the rest of the
    process does to the world before each resumption. *)
Fixpoint fire (env : World -> World) (d : Deferred) (w : World)
  : World * Result :=
  match d with
  | Succeeded v => (w, Ok v)
  | Failed e => (w, Failure e)
  | Waiting k =>
      match k (env w) with
      | (w', d') => fire env d' w'
      end
  end.

(** The final answer of a call: the world and the result once every
    Deferred has fired. *)
Definition complete (env : World -> World) (r : World * Outcome)
  : World * Result :=
  fire env (maybeDeferred r.2) r.1.

(** *** The requests of one session over time *)

Definition set_clock (t : datetime) (w : World) : World :=
  mkWorld (self w) (cache w) t (app_state w).

(** A handler that answers [v] and touches nothing. *)
Definition responding (v : pyval) : Method := fun w => (w, Returns v).

(** Requests arriving at the given times through the rate limiter around
    [f].  The session object is shared by the requests of a session: each
    one finds the counters the previous one left. *)
Fixpoint serve (f : Method) (times : list datetime) (w : World)
  : World * list Outcome :=
  match times with
  | [] => (w, [])
  | t :: ts =>
      let '(w1, o) := decorator_rate_limit f (set_clock t w) in
      let '(w2, os) := serve f ts w1 in
      (w2, o :: os)
  end.

(** The same sequence of requests through the rate limiter in binary64. *)
Fixpoint serve64 (ts : datetime -> float) (f : Method)
    (times : list datetime) (w : World) : World * list Outcome :=
  match times with
  | [] => (w, [])
  | t :: rest =>
      let '(w1, o) := decorator_rate_limit64 ts f (set_clock t w) in
      let '(w2, os) := serve64 ts f rest w1 in
      (w2, o :: os)
  end.

(** The outcome is a rejection with [NotAuthenticated]. *)
Definition rejected (o : Outcome) : bool :=
  match o with
  | Raises NotAuthenticated => true
  | _ => false
  end.

(** Induction on a Deferred, with the hypothesis for whatever a waiting
    Deferred becomes when it is resumed. *)
Fixpoint Deferred_induction (P : Deferred -> Prop)
    (Hs : forall v, P (Succeeded v)) (Hf : forall e, P (Failed e))
    (Hw : forall k, (forall w, P (k w).2) -> P (Waiting k))
    (d : Deferred) : P d :=
  match d with
  | Succeeded v => Hs v
  | Failed e => Hf e
  | Waiting k =>
      Hw k (fun w =>
              match k w as p return P p.2 with
              | (_, d') => Deferred_induction P Hs Hf Hw d'
              end)
  end.

(** What a callback does to a result. *)
Definition then_callback (cb : pyval -> World -> World * Result)
    (r : World * Result) : World * Result :=
  match r with
  | (w, Ok v) => cb v w
  | (w, Failure e) => (w, Failure e)
  end.

(** *** Layers by name *)

(** The wrappers [decorate_method] may attach. *)
Inductive Layer : Type :=
| RateLimit
| RequireToken
| Authentication (roles : gset string)
| CacheGet
| CacheInvalidate
| RefreshEndpoints.

Definition apply_layer (l : Layer) (f : Method) : Method :=
  match l with
  | RateLimit => decorator_rate_limit f
  | RequireToken => decorator_require_token f
  | Authentication roles => decorator_authentication f roles
  | CacheGet => decorator_cache_get f
  | CacheInvalidate => decorator_cache_invalidate f
  | RefreshEndpoints => decorator_refresh_connection_endpoints f
  end.

(** A chain of layers around a handler, the outermost layer first. *)
Definition compose_layers (ls : list Layer) (f : Method) : Method :=
  foldr apply_layer f ls.

(** The allowed roles as a set: a lone string stands for its singleton. *)
Definition role_set (a : Attributes) : gset string :=
  match check_roles a with
  | inl s => {[ s ]}
  | inr v => v
  end.

(** Token gate and rate limiter go with every method but GET and OPTIONS,
    and with those when the handler asks for a token. *)
Definition outer_layers (a : Attributes) (method : string) : list Layer :=
  if decide (method ∉ ["get"; "options"] \/ require_token a = true)
  then [RateLimit; RequireToken]
  else [].

(** The cache layers: lookup for GET, refresh around invalidation for the
    other methods, each by its flag, all under the global setting. *)
Definition cache_layers (enable_api_cache : bool) (a : Attributes)
    (method : string) : list Layer :=
  if enable_api_cache then
    if decide (method = "get") then
      if cache_resource a then [CacheGet] else []
    else
      (if refresh_connection_endpoints a then [RefreshEndpoints] else [])
      ++ (if invalidate_cache a then [CacheInvalidate] else [])
  else [].

(** The chain in the words of the specification, outermost first: token
    gate and rate limiter outermost, then the caching, invalidation and
    refresh layers, and authorization applied directly around the raw
    handler. *)
Definition layers_as_specified (enable_api_cache : bool) (a : Attributes)
    (method : string) : list Layer :=
  outer_layers a method
  ++ cache_layers enable_api_cache a method
  ++ [Authentication (role_set a)].

(** What a guarding layer decides on a request: the world it leaves and
    the error it raises, if any.  Read off the layer around a handler that
    only answers. *)
Definition guard_of (l : Layer) (w : World) : World * option error :=
  match apply_layer l (responding PyNone) w with
  | (w', Raises e) => (w', Some e)
  | (w', _) => (w', None)
  end.

(** Calling a method of a handler class. *)
Definition call (h : HandlerClass) (method : string) (w : World)
  : option (World * Outcome) :=
  match methods h !! method with
  | Some f => Some (f w)
  | None => None
  end.

(** *** Two requests in flight *)

Definition cache_key (slf : Handler) : CacheKey :=
  (req_tid (request slf), path (request slf), language (request slf)).

(** The reactor runs code on behalf of the request bound to [slf]: the
    process-wide state is shared, [self] is the request's own. *)
Definition bound_to (slf : Handler) (w : World) : World :=
  mkWorld slf (cache w) (clock w) (app_state w).

(** Request A is called, then request B, then the reactor fires A's
    Deferred and after it B's. *)
Definition two_in_flight (m : Method) (a b : Handler) (w : World)
  : World * Result * Result :=
  let '(w1, oa) := m (bound_to a w) in
  let '(w2, ob) := m (bound_to b w1) in
  let '(w3, ra) := fire id (maybeDeferred oa) (bound_to (self w1) w2) in
  let '(w4, rb) := fire id (maybeDeferred ob) (bound_to (self w2) w3) in
  (w4, ra, rb).

(** *** Sample data *)

(** A handler class open to administrators, caching, invalidating and
    refreshing, that asks for no token on GET. *)
Definition admin_only : Attributes :=
  mkAttributes (inl "admin") true true true false.

Definition public_request : Request :=
  mkRequest 1 "/api/public" "en" "/api/public" None.

(** A handler instance serving [public_request] without a session or a
    token, and one with a session. *)
Definition no_session : Handler :=
  mkHandler admin_only None public_request None.

Definition with_session (s : Session) : Handler :=
  mkHandler admin_only (Some s) public_request None.

Definition receiver_session : Session := mkSession 1 "receiver" 0 0.

(** A whistleblower whose last window started 100 seconds before time 0. *)
Definition stale_whistleblower : Session :=
  mkSession 1 "whistleblower" (-100000000) 0.


(** A whistleblower whose window has just been opened by a first
    request. *)
Definition fresh_whistleblower : Session := mkSession 1 "whistleblower" 0 1.

(** One request at time 0, then six requests between 10.0 s and 10.5 s. *)
Definition late_burst : list datetime :=
  [0; 10000000; 10100000; 10200000; 10300000; 10400000; 10500000].

(** Seven requests within the first second. *)
Definition early_burst : list datetime :=
  [100000; 200000; 300000; 400000; 500000; 600000; 700000].

(** 2026-11-03T21:00:00Z in microseconds since the epoch. *)
Definition evening : datetime := 1793739600 * 1000000.

(** A whistleblower whose last window started 100 seconds before
    [evening]. *)
Definition idle_whistleblower : Session :=
  mkSession 1 "whistleblower" (evening - 100000000) 0.

(** One request at [evening], then six requests between 10.0 s and 10.5 s
    later. *)
Definition evening_burst : list datetime :=
  [evening; evening + 10000000; evening + 10100000; evening + 10200000;
   evening + 10300000; evening + 10400000; evening + 10500000].

(** One cached answer for [public_request]. *)
Definition warm_cache : CacheDict :=
  {[ (1, "/api/public", "en") := ("text/plain", PyBytes "cached") ]}.

(** * Properties *)

(** Proofs about layers that use neither the encoder nor the refresh
    operation drop them before calling a solver. *)
Ltac drop_parameters :=
  repeat match goal with
         | H : pyval -> string |- _ => clear H
         | H : World -> World * option error |- _ => clear H
         end.

(** ** Strings *)






(** ** Deferreds *)

(** Firing a Deferred that carries a callback is firing the Deferred and
    then running the callback on its value, in the world of that moment. *)
Lemma fire_addCallback (env : World -> World) (d : Deferred)
    (cb : pyval -> World -> World * Result) (w : World) :
  fire env (addCallback d cb w).2 (addCallback d cb w).1
  = then_callback cb (fire env d w).
Proof.
  revert w. induction d as [v|e|k IH] using Deferred_induction; intros w.
  - simpl. destruct (cb v w) as [w' [v'|e]]; reflexivity.
  - reflexivity.
  - simpl. specialize (IH (env w)). destruct (k (env w)) as [w2 d'].
    simpl in IH. specialize (IH w2).
    destruct (addCallback d' cb w2) as [w3 d'']. exact IH.
Qed.

(** A waiting Deferred takes the callback without running anything. *)
Lemma addCallback_waiting (k : World -> World * Deferred)
    (cb : pyval -> World -> World * Result) (w : World) :
  (addCallback (Waiting k) cb w).1 = w.
Proof. reflexivity. Qed.

(** ** The cache store *)

Lemma invalidate_lookup_tenant (tid : Z) (c : CacheDict) (p l : string) :
  Cache.invalidate tid c !! (tid, p, l) = None.
Proof.
  unfold Cache.invalidate. apply map_lookup_filter_None. right.
  intros x _ Hne. now apply Hne.
Qed.

Lemma invalidate_lookup_other (tid t : Z) (c : CacheDict) (p l : string) :
  t <> tid -> Cache.invalidate tid c !! (t, p, l) = c !! (t, p, l).
Proof.
  drop_parameters.
  intros Hne. unfold Cache.invalidate. apply option_eq. intros x.
  rewrite map_lookup_filter_Some. simpl. tauto.
Qed.

(** ** Authentication *)

Lemma authenticated_iff (roles : gset string) (slf : Handler) :
  authenticated roles slf = true
  <-> ("any" ∈ roles
       \/ exists s, session slf = Some s
            /\ sess_tid s = req_tid (request slf)
            /\ (("user" ∈ roles
                 /\ user_role s ∈ ["admin"; "receiver"; "custodian"])
                \/ user_role s ∈ roles)).
Proof.
  unfold authenticated, staff_roles.
  rewrite orb_true_iff, bool_decide_eq_true.
  destruct (session slf) as [s|].
  - rewrite andb_true_iff, orb_true_iff, andb_true_iff, Z.eqb_eq,
      !bool_decide_eq_true.
    split.
    + intros [Hany|[Htid Hrole]]; [now left | right; exists s; tauto].
    + intros [Hany|(s' & Hs & Htid & Hrole)]; [now left | right].
      injection Hs as <-. tauto.
  - split.
    + intros [Hany|Hf]; [now left | discriminate].
    + intros [Hany|(s' & Hs & _)]; [now left | discriminate].
Qed.

(** C4 — The authorization layer calls the wrapped handler if and only if
    the allowed-role set contains ["any"], or a session exists whose tenant
    id equals the request's and whose role is either a staff role (admin,
    receiver, custodian) while the set contains ["user"], or a member of
    the set itself.  In every other case, so in particular for a request
    without a session when ["any"] is absent, it raises [NotAuthenticated]
    and leaves the world as it was: the handler is not invoked. *)
Theorem authentication_permits_iff (f : Method) (roles : gset string)
    (w : World) :
  let slf := self w in
  let permitted :=
    "any" ∈ roles
    \/ exists s, session slf = Some s
         /\ sess_tid s = req_tid (request slf)
         /\ (("user" ∈ roles
              /\ user_role s ∈ ["admin"; "receiver"; "custodian"])
             \/ user_role s ∈ roles) in
  (permitted -> decorator_authentication f roles w = f w)
  /\ (~ permitted ->
      decorator_authentication f roles w = (w, Raises NotAuthenticated))
  /\ (session slf = None -> "any" ∉ roles ->
      decorator_authentication f roles w = (w, Raises NotAuthenticated)).
Proof.
  drop_parameters.
  intros slf permitted. unfold decorator_authentication.
  pose proof (authenticated_iff roles slf) as Hiff. fold slf.
  destruct (authenticated roles slf) eqn:Hauth.
  - assert (Hp : permitted) by now apply Hiff.
    split; [reflexivity|]. split; [tauto|].
    intros Hnone Hany. destruct Hp as [Hp|(s & Hs & _)]; [tauto | congruence].
  - assert (Hp : ~ permitted) by (intros Hp; apply Hiff in Hp; discriminate).
    split; [tauto|]. split; reflexivity.
Qed.

(** ** Token gate *)


(** ** Cache invalidation *)

(** C9 — When the handler is marked cache-invalidating, the invalidation
    of the request's tenant runs on entering the call, before the wrapped
    handler: the handler is invoked in the world whose cache has already
    lost every entry of the tenant (and only those), whatever the handler
    then does, raising included; what the wrapper returns is the handler's
    own world and outcome, so nothing is invalidated afterwards. *)
Theorem cache_invalidate_before_handler (f : Method) (w : World) :
  invalidate_cache (attrs (self w)) = true ->
  let tid := req_tid (request (self w)) in
  let w_in := set_cache (Cache.invalidate tid (cache w)) w in
  decorator_cache_invalidate f w = f w_in
  /\ (forall e, f w_in = (w_in, Raises e) ->
      decorator_cache_invalidate f w = (w_in, Raises e))
  /\ (forall env, complete env (decorator_cache_invalidate f w)
                  = complete env (f w_in))
  /\ (forall p l, cache w_in !! (tid, p, l) = None)
  /\ (forall t p l, t <> tid -> cache w_in !! (t, p, l) = cache w !! (t, p, l))
  /\ self w_in = self w /\ clock w_in = clock w /\ app_state w_in = app_state w.
Proof.
  intros Hflag tid w_in.
  assert (Heq : decorator_cache_invalidate f w = f w_in)
    by (unfold decorator_cache_invalidate; now rewrite Hflag).
  split; [exact Heq|]. split; [intros e He; now rewrite Heq|].
  split; [intros env; now rewrite Heq|].
  split; [intros p l; apply invalidate_lookup_tenant|].
  split; [intros t p l Hne; now apply invalidate_lookup_other|].
  repeat split.
Qed.

(** ** Rate limiter *)

Lemma period_positive (d : Q) : (0 < Qmax d 1)%Q.
Proof. apply Qlt_le_trans with 1%Q; [reflexivity | apply Q.le_max_r]. Qed.

Lemma Qdiv_le_iff (a b p : Q) :
  (0 < p)%Q -> (a / p <= b)%Q <-> (a <= b * p)%Q.
Proof.
  intros Hp. split; intros H.
  - setoid_replace a with (a / p * p)%Q using relation Qeq.
    + apply Qmult_le_compat_r; [exact H | now apply Qlt_le_weak].
    + field. intros E. rewrite E in Hp. discriminate.
  - now apply Qle_shift_div_r.
Qed.

Lemma timestamp_minus (t1 t0 : datetime) :
  (timestamp t1 - timestamp t0 == (t1 - t0) # 1000000)%Q.
Proof.
  unfold timestamp, Qeq, Qminus, Qplus, Qopp. cbn [Qnum Qden]. lia.
Qed.

(** The rate test in whole microseconds. *)
Lemma rate_le_iff (c : Z) (d : Z) :
  (inject_Z c / Qmax (d # 1000000) 1 <= 5)%Q
  <-> c * 1000000 <= 5 * Z.max d 1000000.
Proof.
  rewrite Qdiv_le_iff by apply period_positive.
  destruct (Q.max_spec (d # 1000000) 1) as [[H Heq]|[H Heq]];
    rewrite Heq; revert H;
    unfold Qlt, Qle, Qmult, inject_Z; cbn [Qnum Qden]; lia.
Qed.

Lemma rate_exceeded_iff (now : datetime) (s : Session) :
  rate_exceeded now s = true
  <-> (5 < inject_Z (ratelimit_count s)
           / Qmax ((now - ratelimit_time s) # 1000000) 1)%Q.
Proof.
  unfold rate_exceeded, rate_period.
  rewrite negb_true_iff, <- not_true_iff_false, Qle_bool_iff,
    timestamp_minus.
  split; [apply Qnot_le_lt | apply Qlt_not_le].
Qed.

Lemma rate_exceeded_iff_Z (now : datetime) (s : Session) :
  rate_exceeded now s = true
  <-> 5 * Z.max (now - ratelimit_time s) 1000000
      < ratelimit_count s * 1000000.
Proof.
  rewrite rate_exceeded_iff. split.
  - intros H. apply Z.nle_gt. intros Hle. apply rate_le_iff in Hle.
    now apply Qlt_not_le in H.
  - intros H. apply Qnot_le_lt. intros Hle. apply rate_le_iff in Hle. lia.
Qed.

Lemma rate_window_spec (now : datetime) (s : Session) :
  rate_window now s
  = if decide (30 * 1000000 < now - ratelimit_time s)
    then mkSession (sess_tid s) (user_role s) now 0
    else s.
Proof.
  unfold rate_window, timedelta_seconds.
  destruct (Z.gtb_spec now (ratelimit_time s + 30 * 1000000));
    case_decide; (reflexivity || lia).
Qed.

(** The wrapper on a whistleblower's session, step by step. *)
Lemma rate_limit_whistleblower (f : Method) (w : World) (s : Session) :
  session (self w) = Some s -> user_role s = "whistleblower" ->
  decorator_rate_limit f w
  = let s' := rate_count (rate_window (clock w) s) in
    if rate_exceeded (clock w) s'
    then (set_session s' w, Raises NotAuthenticated)
    else f (set_session s' w).
Proof.
  intros Hs Hrole. unfold decorator_rate_limit, datetime_now.
  now rewrite Hs, Hrole.
Qed.

Lemma rate_limit_bypass (f : Method) (w : World) :
  (forall s, session (self w) = Some s -> user_role s <> "whistleblower") ->
  decorator_rate_limit f w = f w.
Proof.
  intros H. unfold decorator_rate_limit.
  destruct (session (self w)) as [s|]; [|reflexivity].
  destruct (String.eqb_spec (user_role s) "whistleblower") as [E|_];
    [|reflexivity].
  now destruct (H s eq_refl).
Qed.

Lemma rate_limit64_whistleblower (ts : datetime -> float) (f : Method)
    (w : World) (s : Session) :
  session (self w) = Some s -> user_role s = "whistleblower" ->
  decorator_rate_limit64 ts f w
  = let s' := rate_count (rate_window (clock w) s) in
    match rate_exceeded64 ts (clock w) s' with
    | Some true => (set_session s' w, Raises NotAuthenticated)
    | Some false => f (set_session s' w)
    | None => (set_session s' w, Raises (OtherError "OverflowError"))
    end.
Proof.
  intros Hs Hrole. unfold decorator_rate_limit64, datetime_now.
  now rewrite Hs, Hrole.
Qed.

Lemma rate_limit64_bypass (ts : datetime -> float) (f : Method) (w : World) :
  (forall s, session (self w) = Some s -> user_role s <> "whistleblower") ->
  decorator_rate_limit64 ts f w = f w.
Proof.
  intros H. unfold decorator_rate_limit64.
  destruct (session (self w)) as [s|]; [|reflexivity].
  destruct (String.eqb_spec (user_role s) "whistleblower") as [E|_];
    [|reflexivity].
  now destruct (H s eq_refl).
Qed.

(** C5 — For a request on a whistleblower's session the rate limiter
    starts a new window, [(window_start, count) := (now, 0)], when more
    than 30 seconds have passed since [window_start]; it then increments
    [count], takes [rate = count / max(now - window_start, 1 second)], in
    the binary64 arithmetic of Python on the timestamps of the two
    datetimes, and raises [NotAuthenticated] exactly when [rate > 5].  The
    counters are written to the session before the test, so a rejected
    request leaves them updated too.  (A count beyond the range of floats
    makes the division raise [OverflowError].)  With any other role, or
    with no session, the wrapper is the wrapped handler on the unchanged
    world. *)
Theorem rate_limit_accounting64 (ts : datetime -> float) (f : Method)
    (w : World) :
  let now := clock w in
  (forall s, session (self w) = Some s -> user_role s = "whistleblower" ->
     let expired := 30 * 1000000 < now - ratelimit_time s in
     let window_start := if decide expired then now else ratelimit_time s in
     let count := (if decide expired then 0 else ratelimit_count s) + 1 in
     let elapsed := (ts now - ts window_start)%float in
     let period := if (elapsed <? 1)%float then 1%float else elapsed in
     let w' :=
       set_session (mkSession (sess_tid s) (user_role s) window_start count)
                   w in
     (forall n, float_of_int count = Some n ->
        let rate := (n / period)%float in
        ((5 <? rate)%float = true ->
         decorator_rate_limit64 ts f w = (w', Raises NotAuthenticated))
        /\ ((5 <? rate)%float = false ->
            decorator_rate_limit64 ts f w = f w'))
     /\ (float_of_int count = None ->
         decorator_rate_limit64 ts f w
         = (w', Raises (OtherError "OverflowError"))))
  /\ (forall s, session (self w) = Some s ->
        user_role s <> "whistleblower" -> decorator_rate_limit64 ts f w = f w)
  /\ (session (self w) = None -> decorator_rate_limit64 ts f w = f w).
Proof.
  intros now. split; [|split].
  - intros s Hs Hrole expired window_start count elapsed period w'.
    rewrite (rate_limit64_whistleblower ts f w s Hs Hrole). cbv zeta.
    assert (Hs' : rate_count (rate_window (clock w) s)
                  = mkSession (sess_tid s) (user_role s) window_start count).
    { rewrite rate_window_spec. fold now. fold expired.
      unfold window_start, count. now destruct (decide expired). }
    rewrite Hs'. fold w'.
    unfold rate_exceeded64, rate_period64.
    cbn [ratelimit_count ratelimit_time]. fold now elapsed period.
    split.
    + intros n Hn. rewrite Hn.
      split; intros Hrate; now rewrite Hrate.
    + intros Hn. now rewrite Hn.
  - intros s Hs Hrole. apply rate_limit64_bypass. intros s' Hs'. congruence.
  - intros Hs. apply rate_limit64_bypass. intros s' Hs'. congruence.
Qed.



(** The world after one request through the binary64 limiter around a
    handler that only answers, and its verdict on a whistleblower whose
    window is still open. *)
Lemma serve64_step (ts : datetime -> float) (v : pyval) (w : World)
    (s : Session) (t : datetime) :
  session (self w) = Some s -> user_role s = "whistleblower" ->
  t <= ratelimit_time s + 30 * 1000000 ->
  exists o,
    decorator_rate_limit64 ts (responding v) (set_clock t w)
    = (set_session (rate_count s) (set_clock t w), o)
    /\ rejected o
       = match float_of_int (ratelimit_count s + 1) with
         | Some n =>
             let elapsed := (ts t - ts (ratelimit_time s))%float in
             (5 <? n / (if (elapsed <? 1)%float then 1%float else elapsed))%float
         | None => false
         end.
Proof.
  intros Hs Hrole Ht.
  rewrite (rate_limit64_whistleblower ts _ (set_clock t w) s Hs Hrole).
  cbv zeta. cbn [clock set_clock]. rewrite rate_window_spec.
  destruct (decide (30 * 1000000 < t - ratelimit_time s)) as [Hexp|_];
    [lia|].
  unfold rate_exceeded64, rate_period64.
  cbn [rate_count ratelimit_count ratelimit_time].
  destruct (float_of_int (ratelimit_count s + 1)) as [n|];
    [|eexists; split; reflexivity].
  destruct (5 <? _)%float; eexists; split; reflexivity.
Qed.

Lemma serve64_open_window (ts : datetime -> float) (v : pyval)
    (times : list datetime) :
  forall (w : World) (s : Session),
    session (self w) = Some s -> user_role s = "whistleblower" ->
    Forall (fun t => t <= ratelimit_time s + 30 * 1000000) times ->
    map rejected (serve64 ts (responding v) times w).2
    = imap (fun k t =>
              match float_of_int (ratelimit_count s + Z.of_nat k + 1) with
              | Some n =>
                  let elapsed := (ts t - ts (ratelimit_time s))%float in
                  (5 <? n / (if (elapsed <? 1)%float then 1%float
                             else elapsed))%float
              | None => false
              end)
           times.
Proof.
  induction times as [|t rest IH]; intros w s Hs Hrole Hall; [reflexivity|].
  inversion Hall as [|? ? Ht Hrest]; subst.
  destruct (serve64_step ts v w s t Hs Hrole Ht) as (o & Hstep & Ho).
  cbn [serve64]. rewrite Hstep.
  specialize (IH (set_session (rate_count s) (set_clock t w)) (rate_count s)
                 eq_refl Hrole Hrest).
  destruct (serve64 ts (responding v) rest _) as [w2 os].
  cbn [snd map] in *. rewrite imap_cons, Ho, IH. f_equal.
  - cbn [Z.of_nat]. now rewrite Z.add_0_r.
  - apply imap_ext. intros k t' _.
    cbn [rate_count ratelimit_time ratelimit_count compose].
    now replace (ratelimit_count s + 1 + Z.of_nat k + 1)
      with (ratelimit_count s + Z.of_nat (S k) + 1) by lia.
Qed.

Lemma serve64_other_role (ts : datetime -> float) (f : Method)
    (times : list datetime) :
  forall (w : World) (s : Session),
    session (self w) = Some s -> user_role s <> "whistleblower" ->
    (forall w0, (f w0).1 = w0) ->
    (serve64 ts f times w).2 = map (fun t => (f (set_clock t w)).2) times.
Proof.
  induction times as [|t rest IH]; intros w s Hs Hrole Hf; [reflexivity|].
  cbn [serve64 map].
  rewrite (rate_limit64_bypass ts f (set_clock t w))
    by (intros s' Hs'; cbn in Hs'; congruence).
  specialize (Hf (set_clock t w)) as Hw1.
  destruct (f (set_clock t w)) as [w1 o]. cbn in Hw1. subst w1.
  specialize (IH (set_clock t w) s Hs Hrole Hf).
  destruct (serve64 ts f rest (set_clock t w)) as [w2 os].
  cbn [snd] in *. now rewrite IH.
Qed.

(** C6 (amended) — The limiter does not count requests per sliding second:
    it divides the count reached since [window_start] by the seconds
    passed since [window_start], taken as 1 when fewer, in binary64.  For
    the requests of a whistleblower's session inside the open window (no
    later than 30 seconds after [window_start]) the k-th one, rejected
    ones being counted as well, is rejected exactly when that quotient for
    the count it reaches exceeds 5; a burst late in the window is admitted
    while the quotient stays at 5 or below.  Sessions of any other role
    are never rejected by this layer, however many requests arrive. *)
Theorem rate_limit_rejections64 (ts : datetime -> float) (w : World)
    (s : Session) (times : list datetime) (v : pyval) :
  session (self w) = Some s ->
  let t0 := ratelimit_time s in
  let c := ratelimit_count s in
  let verdicts := map rejected (serve64 ts (responding v) times w).2 in
  (user_role s = "whistleblower" ->
   Forall (fun t => t <= t0 + 30 * 1000000) times ->
   verdicts
   = imap (fun k t =>
             match float_of_int (c + Z.of_nat k + 1) with
             | Some count =>
                 let elapsed := (ts t - ts t0)%float in
                 let period :=
                   if (elapsed <? 1)%float then 1%float else elapsed in
                 (5 <? count / period)%float
             | None => false
             end)
          times)
  /\ (user_role s <> "whistleblower" ->
      verdicts = map (fun _ => false) times).
Proof.
  intros Hs t0 c verdicts. split.
  - intros Hrole Hall. now apply serve64_open_window.
  - intros Hrole. unfold verdicts.
    rewrite (serve64_other_role ts (responding v) times w s Hs Hrole)
      by reflexivity.
    rewrite map_map. reflexivity.
Qed.

(** ** Response cache *)

Lemma complete_with_callback (env : World -> World) (w1 : World)
    (o : Outcome) (cb : pyval -> World -> World * Result) :
  complete env
    (let '(w2, d) := addCallback (maybeDeferred o) cb w1 in
     (w2, ReturnsDeferred d))
  = then_callback cb (complete env (w1, o)).
Proof.
  unfold complete. cbn [fst snd].
  rewrite <- fire_addCallback.
  now destruct (addCallback (maybeDeferred o) cb w1) as [w2 d].
Qed.

Lemma cache_get_hit (f : Method) (w : World) (ct : string) (body : pyval) :
  cache w !! cache_key (self w) = Some (ct, body) ->
  decorator_cache_get f w = (setHeader ct w, Returns body).
Proof.
  intros Hhit. unfold decorator_cache_get, Cache.get.
  fold (cache_key (self w)). now rewrite Hhit.
Qed.

Lemma cache_get_miss (f : Method) (w : World) (env : World -> World) :
  cache w !! cache_key (self w) = None ->
  complete env (decorator_cache_get f w)
  = then_callback cache_get_callback (complete env (f w)).
Proof.
  intros Hmiss. unfold decorator_cache_get, Cache.get.
  fold (cache_key (self w)). rewrite Hmiss.
  destruct (f w) as [w1 o]. apply complete_with_callback.
Qed.

(** What the callback of a miss does with the handler's value: the body
    and content-type it settles on, and where the entry ends up. *)
Lemma cache_get_callback_spec (data : pyval) (w1 : World) :
  let structured := is_dict_or_list data in
  let body := if structured then PyStr (json_dumps data) else data in
  let ct :=
    if structured then "application/json"
    else default "application/json" (content_type (request (self w1))) in
  exists w2,
    cache_get_callback data w1 = (w2, Ok body)
    /\ cache w2 = <[cache_key (self w1) := (ct, body)]> (cache w1)
    /\ content_type (request (self w2))
       = (if structured then Some "application/json"
          else content_type (request (self w1))).
Proof.
  unfold cache_get_callback, Cache.set, cache_key, application_json.
  destruct (is_dict_or_list data); eexists; repeat split.
Qed.

(** C2 — On a hit the cache layer sets the response content-type from the
    stored entry and returns the stored body as it is, whatever the handler
    is: the handler is not invoked.  On a miss it invokes the handler and,
    once its result is there: a failure of the handler is passed on in the
    world the handler left, nothing stored; a dict or a list is serialized
    with [json.dumps] and the content-type set to [application/json]; any
    other value is kept, with the response's content-type or
    [application/json] when none is set; the cache of the resulting world
    holds the pair (content-type, body) under the key of the request, the
    key that was looked up as long as the handler has left the request's
    tenant, path and language alone, so the same lookup now hits; the body
    is the result. *)
Theorem cache_get_contract (f : Method) (w : World) :
  (forall ct body,
     cache w !! cache_key (self w) = Some (ct, body) ->
     decorator_cache_get f w = (setHeader ct w, Returns body))
  /\ (cache w !! cache_key (self w) = None ->
      forall env w1 r,
        complete env (f w) = (w1, r) ->
        match r with
        | Failure e =>
            complete env (decorator_cache_get f w) = (w1, Failure e)
        | Ok data =>
            let structured := is_dict_or_list data in
            let body := if structured then PyStr (json_dumps data) else data in
            let ct :=
              if structured then "application/json"
              else default "application/json"
                     (content_type (request (self w1))) in
            exists w2,
              complete env (decorator_cache_get f w) = (w2, Ok body)
              /\ cache w2 !! cache_key (self w1) = Some (ct, body)
              /\ (cache_key (self w1) = cache_key (self w) ->
                  cache w2 !! cache_key (self w) = Some (ct, body)
                  /\ Cache.get (req_tid (request (self w)))
                       (path (request (self w)))
                       (language (request (self w))) (cache w2)
                     = Some (ct, body))
              /\ (forall k, k <> cache_key (self w1) ->
                  cache w2 !! k = cache w1 !! k)
              /\ content_type (request (self w2))
                 = (if structured then Some "application/json"
                    else content_type (request (self w1)))
        end).
Proof.
  split.
  - intros ct body. apply cache_get_hit.
  - intros Hmiss env w1 r Hr.
    rewrite (cache_get_miss f w env Hmiss), Hr.
    destruct r as [data|e]; [|reflexivity].
    cbv zeta. cbn [then_callback].
    destruct (cache_get_callback_spec data w1) as (w2 & Hcb & Hcache & Hct).
    cbv zeta in Hcb, Hcache, Hct.
    exists w2. split; [exact Hcb|].
    assert (Hstored : cache w2 !! cache_key (self w1)
                      = Some (if is_dict_or_list data then "application/json"
                              else default "application/json"
                                     (content_type (request (self w1))),
                              if is_dict_or_list data
                              then PyStr (json_dumps data) else data))
      by (rewrite Hcache; apply lookup_insert_eq).
    split; [exact Hstored|]. split; [|split; [|exact Hct]].
    + intros Hkey. rewrite <- Hkey. split; [exact Hstored|].
      unfold Cache.get. fold (cache_key (self w)). now rewrite <- Hkey.
    + intros k Hk. rewrite Hcache. now apply lookup_insert_ne.
Qed.

(** ** Endpoint refresh *)

(** C8 (amended) — The refresh is a callback on the handler's Deferred: it
    runs in the world in which the handler's result has become available,
    not before.  When the handler fails, no refresh runs and the failure is
    passed on.  When the refresh returns, the handler's value is the
    result, unchanged.  When the refresh raises, its error is the result:
    nothing shields the handler's value from it. *)
Theorem refresh_after_handler (f : Method) (w : World)
    (env : World -> World) :
  (forall w1 r,
     complete env (f w) = (w1, r) ->
     complete env (decorator_refresh_connection_endpoints f w)
     = match r with
       | Failure e => (w1, Failure e)
       | Ok data =>
           match state_refresh_connection_endpoints w1 with
           | (w2, None) => (w2, Ok data)
           | (w2, Some e) => (w2, Failure e)
           end
       end)
  /\ (forall w1 k,
        f w = (w1, ReturnsDeferred (Waiting k)) ->
        (decorator_refresh_connection_endpoints f w).1 = w1).
Proof.
  split.
  - intros w1 r Hr. unfold decorator_refresh_connection_endpoints.
    destruct (f w) as [w0 o]. rewrite complete_with_callback, Hr.
    destruct r; reflexivity.
  - intros w1 k Hf. unfold decorator_refresh_connection_endpoints.
    rewrite Hf. reflexivity.
Qed.

(** A Deferred that was waiting when it took the callback: whenever the
    reactor fires it, the callback runs on what it resolves to. *)
Lemma fire_waiting_callback (env : World -> World)
    (k : World -> World * Deferred) (cb : pyval -> World -> World * Result)
    (w w' : World) :
  fire env (addCallback (Waiting k) cb w).2 w'
  = then_callback cb (fire env (Waiting k) w').
Proof.
  cbn [addCallback snd fire]. destruct (k (env w')) as [w2 d'].
  rewrite <- fire_addCallback.
  now destruct (addCallback d' cb w2) as [w3 d''].
Qed.

(** A miss on a handler that answers later: the handler is called and the
    wrapper hands back its Deferred with the callback attached. *)
Lemma cache_get_miss_pending (f : Method) (w w1 : World)
    (k : World -> World * Deferred) :
  cache w !! cache_key (self w) = None ->
  f w = (w1, ReturnsDeferred (Waiting k)) ->
  decorator_cache_get f w
  = (w1, ReturnsDeferred (addCallback (Waiting k) cache_get_callback w1).2).
Proof.
  intros Hmiss Hf. unfold decorator_cache_get, Cache.get.
  fold (cache_key (self w)). now rewrite Hmiss, Hf.
Qed.

(** C3 (amended) — The cache layer keeps no record of a computation in
    flight: whether the handler is invoked depends on the stored entries
    alone.  When two requests for one key are both called before either
    Deferred has fired, and the handler answers later without storing
    anything itself, the handler is invoked for each of them and each
    stores its own result when its Deferred fires.  Only a request made
    after a result has been stored is answered from the cache, whatever the
    handler is. *)
Theorem cache_get_in_flight (f : Method) (a b : Handler) (w : World) :
  cache_key a = cache_key b ->
  cache w !! cache_key a = None ->
  ((forall w0, exists k,
       (f w0).2 = ReturnsDeferred (Waiting k) /\ cache (f w0).1 = cache w0) ->
   two_in_flight (decorator_cache_get f) a b w
   = (let '(w1, oa) := f (bound_to a w) in
      let '(w2, ob) := f (bound_to b w1) in
      let '(w3, ra) :=
        then_callback cache_get_callback
          (fire id (maybeDeferred oa) (bound_to (self w1) w2)) in
      let '(w4, rb) :=
        then_callback cache_get_callback
          (fire id (maybeDeferred ob) (bound_to (self w2) w3)) in
      (w4, ra, rb)))
  /\ (forall env w' body g,
        complete env (decorator_cache_get f (bound_to a w)) = (w', Ok body) ->
        exists ct,
          cache w' !! cache_key (self w') = Some (ct, body)
          /\ decorator_cache_get g w' = (setHeader ct w', Returns body)).
Proof.
  intros Hkey Hmiss. split.
  - intros Hf. unfold two_in_flight.
    destruct (Hf (bound_to a w)) as (ka & Hoa & Hca).
    destruct (f (bound_to a w)) as [w1 oa] eqn:Hfa.
    cbn [fst snd] in Hoa, Hca. subst oa.
    rewrite (cache_get_miss_pending f (bound_to a w) w1 ka Hmiss Hfa).
    destruct (Hf (bound_to b w1)) as (kb & Hob & Hcb).
    destruct (f (bound_to b w1)) as [w2 ob] eqn:Hfb.
    cbn [fst snd] in Hob, Hcb. subst ob.
    assert (Hmiss' : cache (bound_to b w1) !! cache_key (self (bound_to b w1))
                     = None).
    { cbn [bound_to cache self]. rewrite Hca. cbn [bound_to cache].
      now rewrite <- Hkey. }
    rewrite (cache_get_miss_pending f (bound_to b w1) w2 kb Hmiss' Hfb).
    cbn [maybeDeferred]. rewrite fire_waiting_callback.
    destruct (then_callback cache_get_callback
                (fire id (Waiting ka) (bound_to (self w1) w2))) as [w3 ra].
    now rewrite fire_waiting_callback.
  - intros env w' body g Hdone.
    rewrite (cache_get_miss f (bound_to a w) env Hmiss) in Hdone.
    destruct (complete env (f (bound_to a w))) as [w1 [data|e]];
      [|discriminate].
    unfold then_callback, cache_get_callback, Cache.set in Hdone.
    assert (exists ct, cache w' !! cache_key (self w') = Some (ct, body))
      as [ct Hct].
    { destruct (is_dict_or_list data); injection Hdone as <- <-;
        eexists; apply lookup_insert_eq. }
    exists ct. split; [exact Hct | now apply cache_get_hit].
Qed.

(** ** Composition *)

(** The three guarding layers decide first and call the handler only when
    they raise nothing, in the world they leave. *)
Lemma guard_layer (l : Layer) (f : Method) (w : World) :
  match l with
  | RateLimit | RequireToken | Authentication _ => True
  | _ => False
  end ->
  apply_layer l f w
  = match guard_of l w with
    | (w', Some e) => (w', Raises e)
    | (w', None) => f w'
    end.
Proof.
  intros Hl. unfold guard_of.
  destruct l as [| |roles| | |]; try contradiction; cbn [apply_layer].
  - unfold decorator_rate_limit, responding.
    destruct (session (self w)) as [s|]; [|reflexivity].
    destruct (String.eqb (user_role s) "whistleblower"); [|reflexivity].
    cbv zeta. now destruct (rate_exceeded _ _).
  - unfold decorator_require_token, responding.
    now destruct (_ && _).
  - unfold decorator_authentication, responding.
    now destruct (authenticated roles (self w)).
Qed.

Lemma decorate_method_unfold (enable_api_cache : bool) (h : HandlerClass)
    (method : string) (f : Method) :
  methods h !! method = Some f ->
  decorate_method enable_api_cache h method
  = Some (mkHandlerClass (cls_attrs h)
            (<[method :=
                 compose_layers
                   (outer_layers (cls_attrs h) method
                    ++ Authentication (role_set (cls_attrs h))
                    :: cache_layers enable_api_cache (cls_attrs h) method)
                   f]> (methods h))).
Proof.
  intros Hf. unfold decorate_method. rewrite Hf.
  do 3 f_equal. unfold outer_layers, cache_layers, role_set, wrap_if.
  assert (Hgate : negb (bool_decide (method ∈ ["get"; "options"]))
                  || require_token (cls_attrs h)
                  = bool_decide (method ∉ ["get"; "options"]
                                 \/ require_token (cls_attrs h) = true)).
  { destruct (require_token (cls_attrs h)); repeat case_bool_decide;
      simpl; (reflexivity || tauto || (exfalso; intuition congruence)). }
  rewrite Hgate. clear Hgate.
  assert (Hget : String.eqb method "get" = bool_decide (method = "get")).
  { destruct (String.eqb_spec method "get"); case_bool_decide;
      (reflexivity || contradiction). }
  rewrite Hget. clear Hget.
  destruct enable_api_cache;
    repeat case_bool_decide; repeat case_decide; try tauto;
    destruct (cache_resource (cls_attrs h)),
             (invalidate_cache (cls_attrs h)),
             (refresh_connection_endpoints (cls_attrs h));
    reflexivity.
Qed.

(** C1 (amended) — [decorate_method] applies the cache layer (GET) or the
    invalidation layer and around it the refresh layer (other methods)
    directly around the raw handler, then authorization around them, then
    the token gate and, outermost, the rate limiter.  A request therefore
    meets the rate limit first, then the token check, then authorization,
    each ending the call when it raises, and only then the cache lookup
    or, entered through the refresh layer, the invalidation and the raw
    handler, the refresh running once the handler's result is there. *)
Theorem decorate_method_layers (enable_api_cache : bool) (h : HandlerClass)
    (method : string) (f : Method) :
  methods h !! method = Some f ->
  let a := cls_attrs h in
  let auth := Authentication (role_set a) in
  let inner := cache_layers enable_api_cache a method in
  decorate_method enable_api_cache h method
  = Some (mkHandlerClass a
            (<[method := compose_layers
                           (outer_layers a method ++ auth :: inner) f]>
               (methods h)))
  /\ (forall w,
        compose_layers ([RateLimit; RequireToken] ++ auth :: inner) f w
        = match guard_of RateLimit w with
          | (w1, Some e) => (w1, Raises e)
          | (w1, None) =>
              match guard_of RequireToken w1 with
              | (w2, Some e) => (w2, Raises e)
              | (w2, None) =>
                  match guard_of auth w2 with
                  | (w3, Some e) => (w3, Raises e)
                  | (w3, None) => compose_layers inner f w3
                  end
              end
          end)
  /\ (forall w,
        compose_layers ([] ++ auth :: inner) f w
        = match guard_of auth w with
          | (w3, Some e) => (w3, Raises e)
          | (w3, None) => compose_layers inner f w3
          end)
  /\ (forall w, compose_layers [CacheGet] f w = decorator_cache_get f w)
  /\ (forall w env,
        invalidate_cache (attrs (self w)) = true ->
        complete env (compose_layers [RefreshEndpoints; CacheInvalidate] f w)
        = then_callback refresh_callback
            (complete env
               (f (set_cache
                     (Cache.invalidate (req_tid (request (self w))) (cache w))
                     w)))).
Proof.
  intros Hf a auth inner.
  split; [now apply decorate_method_unfold|].
  split; [|split; [|split]].
  - intros w. unfold compose_layers; cbn [foldr List.app].
    rewrite (guard_layer RateLimit) by exact I.
    destruct (guard_of RateLimit w) as [w1 [e|]]; [reflexivity|].
    rewrite (guard_layer RequireToken) by exact I.
    destruct (guard_of RequireToken w1) as [w2 [e|]]; [reflexivity|].
    now rewrite (guard_layer auth) by exact I.
  - intros w. unfold compose_layers; cbn [foldr List.app].
    now rewrite (guard_layer auth) by exact I.
  - reflexivity.
  - intros w env Hflag. cbn [compose_layers foldr apply_layer].
    unfold decorator_refresh_connection_endpoints.
    destruct (decorator_cache_invalidate f w) as [w1 o] eqn:Hinv.
    rewrite complete_with_callback, <- Hinv.
    unfold decorator_cache_invalidate. now rewrite Hflag.
Qed.

(** C10 — With [State.settings.enable_api_cache] off, [decorate_method]
    attaches the authorization layer and, for a method other than GET and
    OPTIONS or a handler that requires a token, the token gate and the rate
    limiter around it, and nothing else, whatever [cache_resource],
    [invalidate_cache] and [refresh_connection_endpoints] say.  The
    decorated method then either rejects or is the raw handler called in a
    world that differs from the caller's at most in the session's rate
    counters: no lookup or store in the cache, no invalidation, no
    refresh. *)
Theorem decorate_method_api_cache_disabled (h : HandlerClass)
    (method : string) (f : Method) :
  methods h !! method = Some f ->
  let a := cls_attrs h in
  let gated := method ∉ ["get"; "options"] \/ require_token a = true in
  let checked := decorator_authentication f (role_set a) in
  let g :=
    if decide gated
    then decorator_rate_limit (decorator_require_token checked)
    else checked in
  decorate_method false h method
  = Some (mkHandlerClass a (<[method := g]> (methods h)))
  /\ forall w, exists w0,
       (w0 = w \/ exists s, w0 = set_session s w)
       /\ (g w = f w0 \/ exists e, g w = (w0, Raises e)).
Proof.
  intros Hf a gated checked g.
  assert (Hg : g = compose_layers
                     (outer_layers a method
                      ++ Authentication (role_set a)
                      :: cache_layers false a method) f).
  { unfold g, outer_layers. fold gated.
    destruct (decide gated); reflexivity. }
  split.
  - rewrite Hg. now apply decorate_method_unfold.
  - intros w.
    assert (Hchecked : forall w1, checked w1 = f w1
                                  \/ exists e, checked w1 = (w1, Raises e)).
    { intros w1. unfold checked, decorator_authentication.
      destruct (authenticated _ _); eauto. }
    assert (Htoken : forall w1,
               decorator_require_token checked w1 = f w1
               \/ exists e, decorator_require_token checked w1
                            = (w1, Raises e)).
    { intros w1. unfold decorator_require_token.
      destruct (_ && _); [eauto | apply Hchecked]. }
    unfold g. destruct (decide gated) as [_|_].
    + unfold decorator_rate_limit.
      destruct (session (self w)) as [s|];
        [|exists w; split; [now left | apply Htoken]].
      destruct (String.eqb (user_role s) "whistleblower");
        [|exists w; split; [now left | apply Htoken]].
      cbv zeta.
      exists (set_session (rate_count (rate_window (datetime_now w) s)) w).
      split; [right; eauto|].
      destruct (rate_exceeded _ _); [right; eauto | apply Htoken].
    + exists w. split; [now left | apply Hchecked].
Qed.

(** ** Further properties of the composition *)

(** X1 — [decorate_method] fails exactly when the class has no such
    method; when it succeeds, the class attributes and every other method
    of the table are as before, and the method is still there. *)
Theorem decorate_method_frame (enable_api_cache : bool) (h : HandlerClass)
    (method : string) :
  (decorate_method enable_api_cache h method = None
   <-> methods h !! method = None)
  /\ (forall h',
        decorate_method enable_api_cache h method = Some h' ->
        cls_attrs h' = cls_attrs h
        /\ is_Some (methods h' !! method)
        /\ forall m', m' <> method -> methods h' !! m' = methods h !! m').
Proof.
  destruct (methods h !! method) as [f|] eqn:Hf.
  - rewrite (decorate_method_unfold enable_api_cache h method f Hf).
    split; [split; discriminate|].
    intros h' [= <-]. cbn [cls_attrs methods].
    split; [reflexivity|]. split.
    + rewrite lookup_insert_eq. eauto.
    + intros m' Hne. now rewrite lookup_insert_ne.
  - unfold decorate_method. rewrite Hf.
    split; [split; reflexivity|]. discriminate.
Qed.

(** X2 — Decorating a method that is already decorated wraps it again:
    the second call takes the wrapper out of the table and puts the whole
    chain around it once more. *)
Theorem decorate_method_twice (enable_api_cache : bool) (h : HandlerClass)
    (method : string) (f : Method) :
  methods h !! method = Some f ->
  let a := cls_attrs h in
  let chain :=
    compose_layers
      (outer_layers a method
       ++ Authentication (role_set a)
       :: cache_layers enable_api_cache a method) in
  exists h1 h2,
    decorate_method enable_api_cache h method = Some h1
    /\ methods h1 !! method = Some (chain f)
    /\ decorate_method enable_api_cache h1 method = Some h2
    /\ methods h2 !! method = Some (chain (chain f)).
Proof.
  intros Hf a chain.
  pose proof (decorate_method_unfold enable_api_cache h method f Hf) as H1.
  fold a in H1. fold chain in H1.
  set (h1 := mkHandlerClass a (<[method := chain f]> (methods h))) in *.
  assert (Hf1 : methods h1 !! method = Some (chain f))
    by apply lookup_insert_eq.
  pose proof (decorate_method_unfold enable_api_cache h1 method (chain f) Hf1)
    as H2.
  cbn [cls_attrs h1] in H2. fold chain in H2.
  eexists h1, _. split; [exact H1|]. split; [exact Hf1|].
  split; [exact H2|]. apply lookup_insert_eq.
Qed.

(** X3 — On a method that carries the token gate (any method but GET and
    OPTIONS, or a handler that requires a token), a request with no
    session, no token and a URI that does not end in [/api/token] gets the
    token failure, in the unchanged world, whatever the allowed roles, the
    cache flags and the handler are: the token check comes before
    authorization, and the rate limiter lets a request without a session
    through. *)
Theorem gated_method_token_failure (enable_api_cache : bool)
    (h : HandlerClass) (method : string) (f : Method) (w : World) :
  methods h !! method = Some f ->
  method ∉ ["get"; "options"] \/ require_token (cls_attrs h) = true ->
  session (self w) = None ->
  token (self w) = None ->
  endswith (uri (request (self w))) "/api/token" = false ->
  exists h',
    decorate_method enable_api_cache h method = Some h'
    /\ call h' method w
       = Some (w, Raises (InternalServerError
                            "TokenFailure: Missing or invalid token")).
Proof.
  intros Hf Hgated Hs Ht Huri.
  rewrite (decorate_method_unfold enable_api_cache h method f Hf).
  eexists. split; [reflexivity|].
  unfold call. cbn [methods]. rewrite lookup_insert_eq. f_equal.
  unfold outer_layers. destruct (decide _) as [_|Hn]; [|contradiction].
  unfold compose_layers. cbn [foldr List.app apply_layer].
  unfold decorator_rate_limit. rewrite Hs.
  unfold decorator_require_token. now rewrite Hs, Ht, Huri.
Qed.

(** X4 — A GET or OPTIONS method of a handler that requires no token
    carries neither the token gate nor the rate limiter: the decorated
    method is the authorization check followed by the cache layers and the
    handler, in the caller's world, so the rate counters of the session are
    not touched and no token is asked for. *)
Theorem ungated_method_checks_roles_only (enable_api_cache : bool)
    (h : HandlerClass) (method : string) (f : Method) (w : World) :
  methods h !! method = Some f ->
  method ∈ ["get"; "options"] ->
  require_token (cls_attrs h) = false ->
  exists h',
    decorate_method enable_api_cache h method = Some h'
    /\ call h' method w
       = Some (if authenticated (role_set (cls_attrs h)) (self w)
               then compose_layers
                      (cache_layers enable_api_cache (cls_attrs h) method)
                      f w
               else (w, Raises NotAuthenticated)).
Proof.
  intros Hf Hm Htok.
  rewrite (decorate_method_unfold enable_api_cache h method f Hf).
  eexists. split; [reflexivity|].
  unfold call. cbn [methods]. rewrite lookup_insert_eq. f_equal.
  unfold outer_layers.
  destruct (decide _) as [[Hn|Hr]|_]; [contradiction | congruence |].
  reflexivity.
Qed.

(** ** Further properties of the rate limiter *)


(** X6 — A whistleblower's request is never rejected when it opens a new
    window (more than 30 seconds after the last window's start), nor while
    fewer than five requests have been counted in the window: the handler
    is called, with the counters written. *)
Theorem rate_limit_grace (f : Method) (w : World) (s : Session) :
  session (self w) = Some s ->
  user_role s = "whistleblower" ->
  30 * 1000000 < clock w - ratelimit_time s \/ ratelimit_count s < 5 ->
  exists s',
    decorator_rate_limit f w = f (set_session s' w)
    /\ ratelimit_count s'
       = (if decide (30 * 1000000 < clock w - ratelimit_time s)
          then 1 else ratelimit_count s + 1)
    /\ ratelimit_time s'
       = (if decide (30 * 1000000 < clock w - ratelimit_time s)
          then clock w else ratelimit_time s).
Proof.
  intros Hs Hrole Hcase. rewrite (rate_limit_whistleblower f w s Hs Hrole).
  cbv zeta. set (s' := rate_count (rate_window (clock w) s)).
  exists s'.
  assert (Hfields :
            ratelimit_count s'
            = (if decide (30 * 1000000 < clock w - ratelimit_time s)
               then 1 else ratelimit_count s + 1)
            /\ ratelimit_time s'
               = (if decide (30 * 1000000 < clock w - ratelimit_time s)
                  then clock w else ratelimit_time s)).
  { unfold s'. rewrite rate_window_spec.
    destruct (decide (30 * 1000000 < clock w - ratelimit_time s));
      split; reflexivity. }
  destruct Hfields as (Hcount & Htime).
  split; [|split; assumption].
  destruct (rate_exceeded (clock w) s') eqn:Hex; [|reflexivity].
  apply rate_exceeded_iff_Z in Hex. rewrite Hcount, Htime in Hex.
  destruct (decide (30 * 1000000 < clock w - ratelimit_time s)); lia.
Qed.

(** The world and the verdict of one request through the rate limiter
    around a handler that only answers. *)
Lemma serve_one (v : pyval) (w : World) (t : datetime) :
  exists o,
    decorator_rate_limit (responding v) (set_clock t w)
    = (match session (self w) with
       | Some s =>
           if String.eqb (user_role s) "whistleblower"
           then set_session (rate_count (rate_window t s)) (set_clock t w)
           else set_clock t w
       | None => set_clock t w
       end, o).
Proof.
  unfold decorator_rate_limit, responding, datetime_now.
  cbn [set_clock self clock].
  destruct (session (self w)) as [s|]; [|eauto].
  destruct (String.eqb (user_role s) "whistleblower"); [|eauto].
  cbv zeta. destruct (rate_exceeded _ _); eauto.
Qed.

(** X7 — Over any sequence of requests of a session, whatever their times,
    the rate limiter keeps the session's tenant and role, never moves the
    window start backwards, and leaves the session of any role but
    whistleblower exactly as it was. *)
Theorem serve_session_invariants (v : pyval) (times : list datetime) :
  forall (w : World) (s : Session),
    session (self w) = Some s ->
    exists s',
      session (self (serve (responding v) times w).1) = Some s'
      /\ sess_tid s' = sess_tid s
      /\ user_role s' = user_role s
      /\ ratelimit_time s <= ratelimit_time s'
      /\ (user_role s <> "whistleblower" -> s' = s).
Proof.
  induction times as [|t ts IH]; intros w s Hs.
  - exists s. cbn. repeat split; (exact Hs || lia || reflexivity).
  - cbn [serve]. destruct (serve_one v w t) as [o Hstep].
    rewrite Hstep, Hs. clear Hstep.
    destruct (String.eqb_spec (user_role s) "whistleblower") as [Hwb|Hwb].
    + destruct (IH (set_session (rate_count (rate_window t s))
                                (set_clock t w))
                   (rate_count (rate_window t s)) eq_refl)
        as (s' & Hs' & Htid & Hrole & Htime & _).
      destruct (serve (responding v) ts _) as [w2 os].
      exists s'. cbn [fst] in *. split; [exact Hs'|].
      rewrite rate_window_spec in Htid, Hrole, Htime.
      destruct (decide (30 * 1000000 < t - ratelimit_time s));
        cbn [rate_count sess_tid user_role ratelimit_time] in *;
        repeat split; (congruence || lia).
    + destruct (IH (set_clock t w) s Hs) as (s' & Hs' & Htid & Hrole & Ht & He).
      destruct (serve (responding v) ts _) as [w2 os].
      exists s'. cbn [fst] in *. repeat split; auto.
Qed.


(** ** Further properties of authorization *)

(** X10 — Authorization is monotone in the allowed roles: a request that a
    role set admits is admitted by every larger role set. *)
Theorem authentication_monotone (roles roles' : gset string)
    (slf : Handler) :
  roles ⊆ roles' ->
  authenticated roles slf = true ->
  authenticated roles' slf = true
  /\ forall (f : Method) (w : World),
       self w = slf -> decorator_authentication f roles' w = f w.
Proof.
  intros Hsub Hauth.
  assert (Hauth' : authenticated roles' slf = true).
  { apply authenticated_iff. apply authenticated_iff in Hauth.
    destruct Hauth as [Hany|(s & Hs & Htid & [[Hu Hstaff]|Hin])].
    - left. now apply Hsub.
    - right. exists s. split; [exact Hs|]. split; [exact Htid|].
      left. split; [now apply Hsub | exact Hstaff].
    - right. exists s. split; [exact Hs|]. split; [exact Htid|].
      right. now apply Hsub. }
  split; [exact Hauth'|].
  intros f w <-. unfold decorator_authentication. now rewrite Hauth'.
Qed.

(** ** Further properties of the cache and refresh layers *)

(** The callback stores under the key of the request and keeps that key. *)
Lemma cache_get_callback_stores (data : pyval) (w1 : World) :
  exists ct body w2,
    cache_get_callback data w1 = (w2, Ok body)
    /\ cache w2 = <[cache_key (self w1) := (ct, body)]> (cache w1)
    /\ cache_key (self w2) = cache_key (self w1)
    /\ session (self w2) = session (self w1)
    /\ token (self w2) = token (self w1)
    /\ attrs (self w2) = attrs (self w1)
    /\ clock w2 = clock w1
    /\ app_state w2 = app_state w1.
Proof.
  unfold cache_get_callback, Cache.set, cache_key.
  destruct (is_dict_or_list data); do 3 eexists; repeat split.
Qed.

(** X11 — On a miss with a handler that answers at once, the entry is
    stored before the wrapper returns: the wrapper hands back a Deferred
    that has already fired with the body, and the next lookup for the key
    is a hit that returns this body without the handler.  When the handler
    raises, the wrapper does not raise: it hands back a failed Deferred,
    in the world the handler left. *)
Theorem cache_get_synchronous (f : Method) (w w1 : World) :
  cache w !! cache_key (self w) = None ->
  (forall data,
     f w = (w1, Returns data) ->
     exists ct body w2,
       decorator_cache_get f w = (w2, ReturnsDeferred (Succeeded body))
       /\ cache w2 !! cache_key (self w1) = Some (ct, body)
       /\ forall g, decorator_cache_get g w2
                    = (setHeader ct w2, Returns body))
  /\ (forall e,
        f w = (w1, Raises e) ->
        decorator_cache_get f w = (w1, ReturnsDeferred (Failed e))).
Proof.
  intros Hmiss. unfold decorator_cache_get at 1 3, Cache.get.
  fold (cache_key (self w)). rewrite Hmiss. split.
  - intros data Hf. rewrite Hf. cbn [maybeDeferred addCallback].
    destruct (cache_get_callback_stores data w1)
      as (ct & body & w2 & Hcb & Hcache & Hkey & _).
    rewrite Hcb. exists ct, body, w2. split; [reflexivity|].
    assert (Hhit : cache w2 !! cache_key (self w1) = Some (ct, body))
      by (rewrite Hcache; apply lookup_insert_eq).
    split; [exact Hhit|].
    intros g. apply cache_get_hit. now rewrite Hkey.
  - intros e Hf. now rewrite Hf.
Qed.

(** X12 — The refresh wrapper never raises and never returns a plain
    value: it always hands back a Deferred.  When the handler raises, that
    Deferred has failed with the handler's error and no refresh has run;
    when the handler answers at once, the refresh has run before the
    wrapper returns. *)
Theorem refresh_returns_deferred (f : Method) (w : World) :
  (exists d,
     (decorator_refresh_connection_endpoints f w).2 = ReturnsDeferred d)
  /\ (forall w1 e,
        f w = (w1, Raises e) ->
        decorator_refresh_connection_endpoints f w
        = (w1, ReturnsDeferred (Failed e)))
  /\ (forall w1 v,
        f w = (w1, Returns v) ->
        decorator_refresh_connection_endpoints f w
        = match state_refresh_connection_endpoints w1 with
          | (w2, None) => (w2, ReturnsDeferred (Succeeded v))
          | (w2, Some e) => (w2, ReturnsDeferred (Failed e))
          end).
Proof.
  unfold decorator_refresh_connection_endpoints. split; [|split].
  - destruct (f w) as [w1 o].
    destruct (addCallback (maybeDeferred o) refresh_callback w1) as [w2 d].
    eauto.
  - intros w1 e Hf. now rewrite Hf.
  - intros w1 v Hf. rewrite Hf. cbn [maybeDeferred addCallback].
    unfold refresh_callback.
    now destruct (state_refresh_connection_endpoints w1) as [w2 [e|]].
Qed.

(** X13 — A miss writes one key and one header: once the handler's value
    is there, the entries under every other key are what the handler left,
    and so are the session, the token, the class attributes, the clock,
    the application state and the key of the request. *)
Theorem cache_get_writes_one_key (f : Method) (w w1 : World)
    (env : World -> World) (data : pyval) :
  cache w !! cache_key (self w) = None ->
  complete env (f w) = (w1, Ok data) ->
  exists w2 body,
    complete env (decorator_cache_get f w) = (w2, Ok body)
    /\ (forall k, k <> cache_key (self w1) -> cache w2 !! k = cache w1 !! k)
    /\ cache_key (self w2) = cache_key (self w1)
    /\ session (self w2) = session (self w1)
    /\ token (self w2) = token (self w1)
    /\ attrs (self w2) = attrs (self w1)
    /\ clock w2 = clock w1
    /\ app_state w2 = app_state w1.
Proof.
  intros Hmiss Hdone. rewrite (cache_get_miss f w env Hmiss), Hdone.
  cbn [then_callback].
  destruct (cache_get_callback_stores data w1)
    as (ct & body & w2 & Hcb & Hcache & Hrest).
  exists w2, body. split; [exact Hcb|]. split; [|exact Hrest].
  intros k Hk. rewrite Hcache. now apply lookup_insert_ne.
Qed.

(** ** Further properties of the rate limiter in binary64 *)

(** The two wrappers do the same accounting: whatever the arithmetic, the
    counters written and the world handed on are the same; only the
    verdict on the rate is computed differently. *)
Lemma rate_limit_same_accounting (ts : datetime -> float) (f : Method)
    (w : World) :
  exists w',
    (decorator_rate_limit f w = f w'
     \/ decorator_rate_limit f w = (w', Raises NotAuthenticated))
    /\ (decorator_rate_limit64 ts f w = f w'
        \/ decorator_rate_limit64 ts f w = (w', Raises NotAuthenticated)
        \/ decorator_rate_limit64 ts f w
           = (w', Raises (OtherError "OverflowError"))).
Proof.
  unfold decorator_rate_limit, decorator_rate_limit64.
  destruct (session (self w)) as [s|]; [|exists w; auto].
  destruct (String.eqb (user_role s) "whistleblower"); [|exists w; auto].
  cbv zeta. eexists. split.
  - destruct (rate_exceeded _ _); [right|left]; reflexivity.
  - destruct (rate_exceeded64 _ _ _) as [[|]|]; auto.
Qed.

(** A float minus itself is a zero, or not a number when the float is
    infinite or not a number. *)
Lemma SFsub_diag (x : spec_float) :
  match SF64sub x x with
  | S754_zero _ | S754_nan => True
  | _ => False
  end.
Proof.
  destruct x as [s|s| |s m e]; try exact I.
  - destruct s; exact I.
  - destruct s; exact I.
  - unfold SF64sub, SFsub. rewrite Z.sub_diag. exact I.
Qed.

(** The rate of a first request: 1 over a period measured from the request
    itself is never above 5. *)
Lemma first_request_rate (x : float) :
  let elapsed := (x - x)%float in
  (5 <? 1 / (if elapsed <? 1 then 1 else elapsed))%float = false.
Proof.
  intros elapsed. pose proof (SFsub_diag (Prim2SF x)) as H.
  rewrite <- sub_spec in H. fold elapsed in H. clearbody elapsed.
  rewrite (ltb_spec elapsed 1).
  destruct (Prim2SF elapsed) eqn:He; try contradiction.
  - destruct s; reflexivity.
  - change (SFltb S754_nan (Prim2SF 1)) with false. cbv iota.
    rewrite ltb_spec, div_spec, He. reflexivity.
Qed.

(** X14 — In Python's binary64 arithmetic and whatever float
    [timestamp()] returns for the current time, a whistleblower's request
    that opens a new window (more than 30 seconds after the start of the
    last one) is never rejected: the window starts at the request, the
    count is 1, and the handler is called. *)
Theorem rate_limit64_new_window (ts : datetime -> float) (f : Method)
    (w : World) (s : Session) :
  session (self w) = Some s ->
  user_role s = "whistleblower" ->
  30 * 1000000 < clock w - ratelimit_time s ->
  decorator_rate_limit64 ts f w
  = f (set_session (mkSession (sess_tid s) (user_role s) (clock w) 1) w).
Proof.
  intros Hs Hrole Hexpired.
  rewrite (rate_limit64_whistleblower ts f w s Hs Hrole). cbv zeta.
  rewrite rate_window_spec.
  destruct (decide (30 * 1000000 < clock w - ratelimit_time s)); [|lia].
  unfold rate_exceeded64, rate_period64, rate_count.
  cbn [ratelimit_count ratelimit_time sess_tid user_role Z.add].
  change (0 + 1) with 1.
  change (float_of_int 1) with (Some 1%float). cbv beta iota.
  pose proof (first_request_rate (ts (clock w))) as Hrate.
  cbv zeta in Hrate. now rewrite Hrate.
Qed.

End Decorators.

Arguments mkWorld {AppState}.
Arguments self {AppState}.
Arguments cache {AppState}.
Arguments clock {AppState}.
Arguments app_state {AppState}.
Arguments Succeeded {AppState}.
Arguments Failed {AppState}.
Arguments Waiting {AppState}.
Arguments Returns {AppState}.
Arguments Raises {AppState}.
Arguments ReturnsDeferred {AppState}.
Arguments mkHandlerClass {AppState}.
Arguments cls_attrs {AppState}.
Arguments methods {AppState}.
Arguments set_session {AppState}.
Arguments set_cache {AppState}.
Arguments set_clock {AppState}.
Arguments setHeader {AppState}.
Arguments bound_to {AppState}.
Arguments responding {AppState}.
Arguments rejected {AppState}.
Arguments serve {AppState}.
Arguments serve64 {AppState}.
Arguments decorator_rate_limit64 {AppState}.
Arguments complete {AppState}.
Arguments call {AppState}.
Arguments two_in_flight {AppState}.
Arguments compose_layers {AppState}.
Arguments decorate_method {AppState}.
Arguments decorator_rate_limit {AppState}.
Arguments decorator_require_token {AppState}.
Arguments decorator_authentication {AppState}.
Arguments decorator_cache_get {AppState}.
Arguments decorator_cache_invalidate {AppState}.
Arguments decorator_refresh_connection_endpoints {AppState}.

(** * The properties at concrete inputs *)

(** In what follows the application state is a counter of handler
    invocations, [json.dumps] is a stand-in that answers [{}], and the
    refresh operation either returns or raises. *)

(** C1 as stated: with the cache layer outside authorization, a cached
    answer would reach a caller who is not authorized.  The decorated
    method rejects that caller; the chain in the order of the
    specification's first sentence answers from the cache. *)
Lemma authentication_outside_cache :
  let dumps := fun _ : pyval => "{}" in
  let refresh := fun w : World nat => (w, @None error) in
  let raw : Method nat := responding (PyStr "fresh") in
  let h := mkHandlerClass admin_only {[ "get" := raw ]} in
  let w := mkWorld no_session warm_cache 0 0%nat in
  match decorate_method dumps refresh true h "get" with
  | Some h' => call h' "get" w
  | None => None
  end = Some (w, Raises NotAuthenticated)
  /\ compose_layers dumps refresh (layers_as_specified true admin_only "get")
       raw w
     = (setHeader "text/plain" w, Returns (PyBytes "cached")).
Proof. split; vm_compute; reflexivity. Qed.

(** C3 as stated: two requests for one key, both called before either
    Deferred fires, with nothing stored and no invalidation in between:
    the handler, which counts its invocations, runs twice. *)
Lemma two_misses_two_computations :
  let dumps := fun _ : pyval => "{}" in
  let slow_report : Method nat := fun w =>
    (mkWorld (self w) (cache w) (clock w) (S (app_state w)),
     ReturnsDeferred (Waiting (fun w' => (w', Succeeded (PyStr "report"))))) in
  let w := mkWorld no_session ∅ 0 0%nat in
  cache_key no_session = (1, "/api/public", "en")
  /\ cache w !! (1, "/api/public", "en") = None
  /\ app_state
       (two_in_flight (decorator_cache_get dumps slow_report)
          no_session no_session w).1.1
     = 2%nat.
Proof. repeat split; vm_compute; reflexivity. Qed.

(** C6 as stated: a request at 21:00:00 opens a new window; six requests
    arrive between 10.0 s and 10.5 s later, inside the 30-second window and
    within half a second of each other, and none is rejected. *)
Lemma evening_burst_not_rejected :
  let w := mkWorld (with_session idle_whistleblower) ∅ 0 0%nat in
  map rejected (serve64 utc_timestamp (responding PyNone) evening_burst w).2
  = [false; false; false; false; false; false; false]
  /\ session
       (self (serve64 utc_timestamp (responding PyNone) evening_burst w).1)
     = Some (mkSession 1 "whistleblower" evening 7).
Proof. split; vm_compute; reflexivity. Qed.

(** C8 as stated: the handler answers, the refresh raises, and the caller
    gets the error of the refresh in place of the handler's answer. *)
Lemma refresh_failure_masks_result :
  let refresh_broken := fun w : World nat =>
    (w, Some (OtherError "refresh")) in
  let w := mkWorld no_session ∅ 0 0%nat in
  complete id (responding (PyStr "done") w) = (w, Ok (PyStr "done"))
  /\ complete id
       (decorator_refresh_connection_endpoints refresh_broken
          (responding (PyStr "done")) w)
     = (w, Failure (OtherError "refresh")).
Proof. split; reflexivity. Qed.

Lemma decorate_method_layers_witness :
  let dumps := fun _ : pyval => "{}" in
  let refresh := fun w : World nat => (w, @None error) in
  let raw : Method nat := responding (PyStr "fresh") in
  let h := mkHandlerClass admin_only {[ "get" := raw ]} in
  decorate_method dumps refresh true h "get"
  = Some (mkHandlerClass admin_only
            (<["get" := compose_layers dumps refresh
                          [Authentication {[ "admin" ]}; CacheGet] raw]>
               (methods h))).
Proof.
  cbv zeta.
  exact (proj1 (decorate_method_layers nat
                  (fun _ => "{}") (fun w => (w, None)) true
                  (mkHandlerClass admin_only
                     {[ "get" := responding (PyStr "fresh") ]})
                  "get" (responding (PyStr "fresh")) eq_refl)).
Defined.

Lemma cache_get_contract_witness :
  let dumps := fun _ : pyval => "{}" in
  let f : Method nat := responding (PyDict []) in
  let w := mkWorld no_session ∅ 0 0%nat in
  exists w2,
    complete id (decorator_cache_get dumps f w) = (w2, Ok (PyStr "{}"))
    /\ cache w2 !! cache_key no_session
       = Some ("application/json", PyStr "{}")
    /\ (cache_key no_session = cache_key no_session ->
        cache w2 !! cache_key no_session
        = Some ("application/json", PyStr "{}")
        /\ Cache.get 1 "/api/public" "en" (cache w2)
           = Some ("application/json", PyStr "{}"))
    /\ (forall k, k <> cache_key no_session -> cache w2 !! k = cache w !! k)
    /\ content_type (request (self w2)) = Some "application/json".
Proof.
  cbv zeta.
  exact (proj2 (cache_get_contract nat (fun _ => "{}")
                  (responding (PyDict []))
                  (mkWorld no_session ∅ 0 0%nat))
           (lookup_empty _) id (mkWorld no_session ∅ 0 0%nat)
           (Ok (PyDict [])) eq_refl).
Defined.

(** The eighth request of a window opened at 21:00:00, 1.6 seconds later:
    the period is [1.5999999046325684] and the rate [5.0000002980232416],
    above 5. *)
Lemma rate_limit_accounting64_witness :
  let s := mkSession 1 "whistleblower" evening 7 in
  let w := mkWorld (with_session s) ∅ (evening + 1600000) 0%nat in
  PrimFloat.sub (utc_timestamp (evening + 1600000)) (utc_timestamp evening)
  = 0x1.999998p+0%float
  /\ decorator_rate_limit64 utc_timestamp (responding (PyStr "ok")) w
     = (mkWorld (with_session (mkSession 1 "whistleblower" evening 8)) ∅
                (evening + 1600000) 0%nat,
        Raises NotAuthenticated).
Proof.
  cbv zeta. split; [vm_compute; reflexivity|].
  pose proof (rate_limit_accounting64 nat utc_timestamp
                (responding (PyStr "ok"))
                (mkWorld
                   (with_session (mkSession 1 "whistleblower" evening 7))
                   ∅ (evening + 1600000) 0%nat)) as H.
  cbv zeta in H. destruct H as [H _].
  specialize (H (mkSession 1 "whistleblower" evening 7) eq_refl eq_refl).
  destruct H as [H _]. specialize (H 8%float).
  assert (Hn : float_of_int 8 = Some 8%float) by (vm_compute; reflexivity).
  destruct (H Hn) as [Hrejected _]. apply Hrejected.
  vm_compute. reflexivity.
Defined.

Lemma rate_limit_rejections64_witness :
  let s := mkSession 1 "whistleblower" evening 1 in
  let w := mkWorld (with_session s) ∅ 0 0%nat in
  map rejected
    (serve64 utc_timestamp (responding PyNone)
       [evening + 100000; evening + 200000; evening + 300000;
        evening + 400000; evening + 500000; evening + 600000;
        evening + 1600000] w).2
  = [false; false; false; false; true; true; true].
Proof.
  cbv zeta.
  rewrite (proj1 (rate_limit_rejections64 nat utc_timestamp
                    (mkWorld
                       (with_session (mkSession 1 "whistleblower" evening 1))
                       ∅ 0 0%nat)
                    (mkSession 1 "whistleblower" evening 1)
                    [evening + 100000; evening + 200000; evening + 300000;
                     evening + 400000; evening + 500000; evening + 600000;
                     evening + 1600000] PyNone eq_refl)
             eq_refl).
  - vm_compute. reflexivity.
  - repeat constructor; discriminate.
Defined.

Lemma cache_get_in_flight_witness :
  let dumps := fun _ : pyval => "{}" in
  let slow_report : Method nat := fun w =>
    (mkWorld (self w) (cache w) (clock w) (S (app_state w)),
     ReturnsDeferred (Waiting (fun w' => (w', Succeeded (PyStr "report"))))) in
  let w := mkWorld no_session ∅ 0 0%nat in
  cache
    (two_in_flight (decorator_cache_get dumps slow_report)
       no_session no_session w).1.1
  !! (1, "/api/public", "en")
  = Some ("application/json", PyStr "report").
Proof.
  cbv zeta.
  rewrite (proj1 (cache_get_in_flight nat (fun _ => "{}")
                    (fun w =>
                       (mkWorld (self w) (cache w) (clock w)
                                (S (app_state w)),
                        ReturnsDeferred
                          (Waiting (fun w' =>
                                      (w', Succeeded (PyStr "report"))))))
                    no_session no_session (mkWorld no_session ∅ 0 0%nat)
                    eq_refl (lookup_empty _))).
  - vm_compute. reflexivity.
  - intros w0. eexists. split; reflexivity.
Defined.

Lemma authentication_permits_iff_witness :
  let w := mkWorld (with_session receiver_session) ∅ 0 0%nat in
  decorator_authentication (responding (PyStr "ok")) {[ "user" ]} w
  = (w, Returns (PyStr "ok")).
Proof.
  cbv zeta.
  apply (proj1 (authentication_permits_iff nat (responding (PyStr "ok"))
                  {[ "user" ]}
                  (mkWorld (with_session receiver_session) ∅ 0 0%nat))).
  right. exists receiver_session.
  split; [reflexivity|]. split; [reflexivity|]. left.
  split; [now apply elem_of_singleton|].
  apply list_elem_of_further, list_elem_of_here.
Defined.


Lemma refresh_after_handler_witness :
  let refresh := fun w : World nat => (w, @None error) in
  let w := mkWorld no_session ∅ 0 0%nat in
  complete id
    (decorator_refresh_connection_endpoints refresh
       (responding (PyStr "done")) w)
  = (w, Ok (PyStr "done")).
Proof.
  cbv zeta.
  exact (proj1 (refresh_after_handler nat (fun w => (w, None))
                  (responding (PyStr "done"))
                  (mkWorld no_session ∅ 0 0%nat) id)
           (mkWorld no_session ∅ 0 0%nat) (Ok (PyStr "done")) eq_refl).
Defined.

Lemma cache_invalidate_before_handler_witness :
  let w := mkWorld no_session warm_cache 0 0%nat in
  decorator_cache_invalidate (responding (PyStr "ok")) w
  = (set_cache (Cache.invalidate 1 warm_cache) w, Returns (PyStr "ok")).
Proof.
  cbv zeta.
  exact (proj1 (cache_invalidate_before_handler nat
                  (responding (PyStr "ok"))
                  (mkWorld no_session warm_cache 0 0%nat) eq_refl)).
Defined.

Lemma decorate_method_api_cache_disabled_witness :
  let dumps := fun _ : pyval => "{}" in
  let refresh := fun w : World nat => (w, @None error) in
  let raw : Method nat := responding (PyStr "fresh") in
  let h := mkHandlerClass admin_only {[ "get" := raw ]} in
  decorate_method dumps refresh false h "get"
  = Some (mkHandlerClass admin_only
            (<["get" := decorator_authentication raw {[ "admin" ]}]>
               (methods h))).
Proof.
  cbv zeta.
  exact (proj1 (decorate_method_api_cache_disabled nat
                  (fun _ => "{}") (fun w => (w, None))
                  (mkHandlerClass admin_only
                     {[ "get" := responding (PyStr "fresh") ]})
                  "get" (responding (PyStr "fresh")) eq_refl)).
Defined.

(** ** The further properties at concrete inputs *)

Lemma decorate_method_twice_witness :
  let dumps := fun _ : pyval => "{}" in
  let refresh := fun w : World nat => (w, @None error) in
  let raw : Method nat := responding (PyStr "saved") in
  let h := mkHandlerClass admin_only {[ "post" := raw ]} in
  let chain :=
    compose_layers dumps refresh
      [RateLimit; RequireToken; Authentication {[ "admin" ]};
       RefreshEndpoints; CacheInvalidate] in
  exists h1 h2,
    decorate_method dumps refresh true h "post" = Some h1
    /\ methods h1 !! "post" = Some (chain raw)
    /\ decorate_method dumps refresh true h1 "post" = Some h2
    /\ methods h2 !! "post" = Some (chain (chain raw)).
Proof.
  cbv zeta.
  exact (decorate_method_twice nat
           (fun _ => "{}") (fun w => (w, None)) true
           (mkHandlerClass admin_only
              {[ "post" := responding (PyStr "saved") ]})
           "post" (responding (PyStr "saved")) eq_refl).
Defined.

Lemma gated_method_token_failure_witness :
  let dumps := fun _ : pyval => "{}" in
  let refresh := fun w : World nat => (w, @None error) in
  let h :=
    mkHandlerClass (mkAttributes (inl "any") true true true false)
                   {[ "post" := responding (PyStr "saved") ]} in
  let w := mkWorld no_session warm_cache 0 0%nat in
  exists h',
    decorate_method dumps refresh true h "post" = Some h'
    /\ call h' "post" w
       = Some (w, Raises (InternalServerError
                            "TokenFailure: Missing or invalid token")).
Proof.
  cbv zeta.
  apply (gated_method_token_failure nat
           (fun _ => "{}") (fun w => (w, None)) true
           (mkHandlerClass (mkAttributes (inl "any") true true true false)
              {[ "post" := responding (PyStr "saved") ]})
           "post" (responding (PyStr "saved"))
           (mkWorld no_session warm_cache 0 0%nat)).
  - reflexivity.
  - left. apply not_elem_of_cons. split; [discriminate|].
    apply not_elem_of_cons. split; [discriminate | apply not_elem_of_nil].
  - reflexivity.
  - reflexivity.
  - reflexivity.
Defined.

Lemma ungated_method_checks_roles_only_witness :
  let dumps := fun _ : pyval => "{}" in
  let refresh := fun w : World nat => (w, @None error) in
  let h :=
    mkHandlerClass admin_only {[ "get" := responding (PyStr "fresh") ]} in
  let w := mkWorld no_session warm_cache 0 0%nat in
  exists h',
    decorate_method dumps refresh true h "get" = Some h'
    /\ call h' "get" w = Some (w, Raises NotAuthenticated).
Proof.
  cbv zeta.
  apply (ungated_method_checks_roles_only nat
           (fun _ => "{}") (fun w => (w, None)) true
           (mkHandlerClass admin_only
              {[ "get" := responding (PyStr "fresh") ]})
           "get" (responding (PyStr "fresh"))
           (mkWorld no_session warm_cache 0 0%nat)).
  - reflexivity.
  - apply list_elem_of_here.
  - reflexivity.
Defined.


Lemma rate_limit_grace_witness :
  let w := mkWorld (with_session fresh_whistleblower) ∅ 500000 0%nat in
  let f : Method nat := responding (PyStr "ok") in
  exists s',
    decorator_rate_limit f w = f (set_session s' w)
    /\ ratelimit_count s' = 2
    /\ ratelimit_time s' = 0.
Proof.
  cbv zeta.
  exact (rate_limit_grace nat (responding (PyStr "ok"))
           (mkWorld (with_session fresh_whistleblower) ∅ 500000 0%nat)
           fresh_whistleblower eq_refl eq_refl (or_intror eq_refl)).
Defined.

Lemma serve_session_invariants_witness :
  let w := mkWorld (with_session stale_whistleblower) ∅ 0 0%nat in
  exists s',
    session (self (serve (responding PyNone) late_burst w).1) = Some s'
    /\ sess_tid s' = 1
    /\ user_role s' = "whistleblower"
    /\ -100000000 <= ratelimit_time s'
    /\ ("whistleblower" <> "whistleblower" -> s' = stale_whistleblower).
Proof.
  cbv zeta.
  exact (serve_session_invariants nat PyNone late_burst
           (mkWorld (with_session stale_whistleblower) ∅ 0 0%nat)
           stale_whistleblower eq_refl).
Defined.


Lemma authentication_monotone_witness :
  authenticated ({[ "user" ]} ∪ {[ "whistleblower" ]})
    (with_session receiver_session) = true
  /\ forall (f : Method nat) (w : World nat),
       self w = with_session receiver_session ->
       decorator_authentication f ({[ "user" ]} ∪ {[ "whistleblower" ]}) w
       = f w.
Proof.
  apply (authentication_monotone nat {[ "user" ]}
           ({[ "user" ]} ∪ {[ "whistleblower" ]})
           (with_session receiver_session)).
  - apply union_subseteq_l.
  - vm_compute. reflexivity.
Defined.

Lemma cache_get_synchronous_witness :
  let dumps := fun _ : pyval => "{}" in
  let f : Method nat := responding (PyList [PyInt 1]) in
  let w := mkWorld no_session ∅ 0 0%nat in
  exists ct body w2,
    decorator_cache_get dumps f w = (w2, ReturnsDeferred (Succeeded body))
    /\ cache w2 !! cache_key no_session = Some (ct, body)
    /\ forall g, decorator_cache_get dumps g w2
                 = (setHeader ct w2, Returns body).
Proof.
  cbv zeta.
  exact (proj1 (cache_get_synchronous nat (fun _ => "{}")
                  (responding (PyList [PyInt 1]))
                  (mkWorld no_session ∅ 0 0%nat)
                  (mkWorld no_session ∅ 0 0%nat) (lookup_empty _))
           (PyList [PyInt 1]) eq_refl).
Defined.

Lemma cache_get_writes_one_key_witness :
  let dumps := fun _ : pyval => "{}" in
  let f : Method nat := responding (PyList [PyInt 1]) in
  let w := mkWorld no_session ∅ 0 0%nat in
  exists w2 body,
    complete id (decorator_cache_get dumps f w) = (w2, Ok body)
    /\ (forall k, k <> cache_key no_session -> cache w2 !! k = cache w !! k)
    /\ cache_key (self w2) = cache_key no_session
    /\ session (self w2) = None
    /\ token (self w2) = None
    /\ attrs (self w2) = admin_only
    /\ clock w2 = 0
    /\ app_state w2 = 0%nat.
Proof.
  cbv zeta.
  exact (cache_get_writes_one_key nat (fun _ => "{}")
           (responding (PyList [PyInt 1]))
           (mkWorld no_session ∅ 0 0%nat) (mkWorld no_session ∅ 0 0%nat)
           id (PyList [PyInt 1]) (lookup_empty _) eq_refl).
Defined.

Lemma rate_limit64_new_window_witness :
  let w :=
    mkWorld (with_session idle_whistleblower) ∅ evening 0%nat in
  decorator_rate_limit64 utc_timestamp (responding (PyStr "ok")) w
  = (mkWorld (with_session (mkSession 1 "whistleblower" evening 1)) ∅
             evening 0%nat,
     Returns (PyStr "ok")).
Proof.
  cbv zeta.
  exact (rate_limit64_new_window nat utc_timestamp (responding (PyStr "ok"))
           (mkWorld (with_session idle_whistleblower) ∅ evening 0%nat)
           idle_whistleblower eq_refl eq_refl eq_refl).
Defined.
